(** * schematic: JSON Schema generation from Go struct types

    A shallow embedding of the package [schematic] (the generator with the
    [$defs] table) and the statements its specification makes about it.

    The generator only looks at its input through Go's [reflect] API, so a Go
    type is represented the way the Go runtime represents it: a reference to a
    type descriptor in a table of descriptors, on which [Kind], [String],
    [Name], [Elem] and the field list are read.  Two [reflect.Type] values are
    equal exactly when they are the same reference, which is how the
    generator's [visited] map compares them, and a cyclic type is simply a
    descriptor whose fields lead back to its own reference. *)

From Stdlib Require Import Ascii String NArith ZArith.
From stdpp Require Import base decidable option strings list gmap fin_maps fin_sets pretty.

Set Warnings "-register-all".

#[local] Open Scope string_scope.
#[local] Open Scope list_scope.

(** ** The Go library functions the generator calls *)

(** Package [strings].  Strings are byte strings, as in Go. *)
Module strings.

(** [strings.Split(s, sep)] for a one-byte separator (the generator only
    splits on a comma).  The result is never empty: splitting the empty
    string yields one empty piece. *)
Fixpoint Split (s : string) (sep : ascii) : list string :=
  match s with
  | EmptyString => [EmptyString]
  | String c s' =>
      if decide (c = sep) then EmptyString :: Split s' sep
      else match Split s' sep with
           | piece :: pieces => String c piece :: pieces
           | [] => [String c EmptyString]
           end
  end.

(** [strings.Join(elems, sep)]. *)
Fixpoint Join (elems : list string) (sep : string) : string :=
  match elems with
  | [] => ""
  | [e] => e
  | e :: rest => e +:+ sep +:+ Join rest sep
  end.

(** [strings.HasPrefix(s, prefix)]. *)
Definition HasPrefix (s prefix : string) : bool := String.prefix prefix s.

(** [strings.Contains(s, substr)]: [substr] starts at some position of [s]. *)
Fixpoint Contains (s substr : string) : bool :=
  String.prefix substr s ||
  match s with
  | EmptyString => false
  | String _ s' => Contains s' substr
  end.

End strings.

(** Package [unicode/utf8].  A rune is its code point. *)
Module utf8.

Definition RuneError : N := 0xFFFD.

(** The size of the encoding that a first byte announces, and the range in
    which the second byte must lie (the tables [first] and [acceptRanges]);
    [None] for a byte that cannot start a multi-byte encoding. *)
Definition first (s0 : N) : option (nat * N * N) :=
  (if (0xC2 <=? s0) && (s0 <=? 0xDF) then Some (2%nat, 0x80, 0xBF)
   else if s0 =? 0xE0 then Some (3%nat, 0xA0, 0xBF)
   else if (0xE1 <=? s0) && (s0 <=? 0xEC) then Some (3%nat, 0x80, 0xBF)
   else if s0 =? 0xED then Some (3%nat, 0x80, 0x9F)
   else if (0xEE <=? s0) && (s0 <=? 0xEF) then Some (3%nat, 0x80, 0xBF)
   else if s0 =? 0xF0 then Some (4%nat, 0x90, 0xBF)
   else if (0xF1 <=? s0) && (s0 <=? 0xF3) then Some (4%nat, 0x80, 0xBF)
   else if s0 =? 0xF4 then Some (4%nat, 0x80, 0x8F)
   else None)%N.

(** A continuation byte. *)
Definition continuation (b : N) : bool := ((0x80 <=? b) && (b <=? 0xBF))%N.

(** [utf8.DecodeRuneInString(s)]: the first rune of [s] and its width in
    bytes; [(RuneError, 1)] where the bytes are not a rune in UTF-8. *)
Definition DecodeRuneInString (s : string) : N * nat :=
  match s with
  | EmptyString => (RuneError, 0)
  | String c0 s =>
      let s0 := N_of_ascii c0 in
      if (s0 <? 0x80)%N then (s0, 1)
      else
        match first s0, s with
        | Some (sz, lo, hi), String c1 s =>
            let s1 := N_of_ascii c1 in
            if negb ((lo <=? s1) && (s1 <=? hi))%N then (RuneError, 1)
            else if decide (sz = 2) then
              (N.lor (N.shiftl (N.land s0 0x1F) 6) (N.land s1 0x3F), 2)
            else
              match s with
              | String c2 s =>
                  let s2 := N_of_ascii c2 in
                  if negb (continuation s2) then (RuneError, 1)
                  else if decide (sz = 3) then
                    (N.lor (N.shiftl (N.land s0 0x0F) 12)
                       (N.lor (N.shiftl (N.land s1 0x3F) 6) (N.land s2 0x3F)), 3)
                  else
                    match s with
                    | String c3 _ =>
                        let s3 := N_of_ascii c3 in
                        if negb (continuation s3) then (RuneError, 1)
                        else
                          (N.lor (N.shiftl (N.land s0 0x07) 18)
                             (N.lor (N.shiftl (N.land s1 0x3F) 12)
                                (N.lor (N.shiftl (N.land s2 0x3F) 6) (N.land s3 0x3F))), 4)
                    | EmptyString => (RuneError, 1)
                    end
              | EmptyString => (RuneError, 1)
              end
        | _, _ => (RuneError, 1)
        end
  end.

(** The bytes that [utf8.AppendRune] appends, which [Builder.WriteRune]
    writes. *)
Definition EncodeRune (r : N) : string :=
  let byte (b : N) : string := String (ascii_of_N b) EmptyString in
  if (r <=? 0x7F)%N then byte r
  else if (r <=? 0x7FF)%N then
    byte (N.lor 0xC0 (N.shiftr r 6)) +:+ byte (N.lor 0x80 (N.land r 0x3F))
  else
    let r := if ((0x10FFFF <? r) || (0xD800 <=? r) && (r <=? 0xDFFF))%N then RuneError
             else r in
    if (r <=? 0xFFFF)%N then
      byte (N.lor 0xE0 (N.shiftr r 12)) +:+
      byte (N.lor 0x80 (N.land (N.shiftr r 6) 0x3F)) +:+
      byte (N.lor 0x80 (N.land r 0x3F))
    else
      byte (N.lor 0xF0 (N.shiftr r 18)) +:+
      byte (N.lor 0x80 (N.land (N.shiftr r 12) 0x3F)) +:+
      byte (N.lor 0x80 (N.land (N.shiftr r 6) 0x3F)) +:+
      byte (N.lor 0x80 (N.land r 0x3F)).

End utf8.

(** [s[n:]]. *)
Fixpoint sliceFrom (s : string) (n : nat) : string :=
  match n, s with
  | S n', String _ s' => sliceFrom s' n'
  | _, _ => s
  end.

(** [for i, r := range s]: the byte index and the rune of each iteration.
    Each iteration decodes the rune at [i] and moves on by its width, which is
    at least one; the recursion is on the number of bytes that are left at
    most. *)
Fixpoint range_loop (bytes i : nat) (s : string) : list (nat * N) :=
  match bytes, s with
  | S bytes', String _ _ =>
      let '(r, size) := utf8.DecodeRuneInString s in
      (i, r) :: range_loop bytes' (i + size) (sliceFrom s size)
  | _, _ => []
  end.

Definition rangeString (s : string) : list (nat * N) := range_loop (String.length s) 0 s.

(** Package [unicode].  The tables are those of the Unicode Character Database,
    version 14.0.0: the [unicode] package of a Go release carries the tables
    of the version of the standard it ships with, and letters that a later
    version adds are not in them. *)
Module unicode.

(** [unicode.Upper], the letters of category Lu, as a range table: the
    code points [Lo], [Lo + Stride], ... up to [Hi]. *)
Definition Upper : list (N * N * N) :=
  [
    (0x41, 0x5A, 1); (0xC0, 0xD6, 1); (0xD8, 0xDE, 1); (0x100, 0x136, 2); (0x139, 0x147, 2);
    (0x14A, 0x178, 2); (0x179, 0x17D, 2); (0x181, 0x182, 1); (0x184, 0x186, 2);
    (0x187, 0x189, 2); (0x18A, 0x18B, 1); (0x18E, 0x191, 1); (0x193, 0x194, 1);
    (0x196, 0x198, 1); (0x19C, 0x19D, 1); (0x19F, 0x1A0, 1); (0x1A2, 0x1A6, 2);
    (0x1A7, 0x1A9, 2); (0x1AC, 0x1AE, 2); (0x1AF, 0x1B1, 2); (0x1B2, 0x1B3, 1);
    (0x1B5, 0x1B7, 2); (0x1B8, 0x1B8, 1); (0x1BC, 0x1BC, 1); (0x1C4, 0x1CD, 3);
    (0x1CF, 0x1DB, 2); (0x1DE, 0x1EE, 2); (0x1F1, 0x1F1, 1); (0x1F4, 0x1F6, 2);
    (0x1F7, 0x1F8, 1); (0x1FA, 0x232, 2); (0x23A, 0x23B, 1); (0x23D, 0x23E, 1);
    (0x241, 0x243, 2); (0x244, 0x246, 1); (0x248, 0x24E, 2); (0x370, 0x372, 2);
    (0x376, 0x376, 1); (0x37F, 0x37F, 1); (0x386, 0x388, 2); (0x389, 0x38A, 1);
    (0x38C, 0x38E, 2); (0x38F, 0x391, 2); (0x392, 0x3A1, 1); (0x3A3, 0x3AB, 1);
    (0x3CF, 0x3CF, 1); (0x3D2, 0x3D4, 1); (0x3D8, 0x3EE, 2); (0x3F4, 0x3F4, 1);
    (0x3F7, 0x3F9, 2); (0x3FA, 0x3FA, 1); (0x3FD, 0x42F, 1); (0x460, 0x480, 2);
    (0x48A, 0x4C0, 2); (0x4C1, 0x4CD, 2); (0x4D0, 0x52E, 2); (0x531, 0x556, 1);
    (0x10A0, 0x10C5, 1); (0x10C7, 0x10C7, 1); (0x10CD, 0x10CD, 1); (0x13A0, 0x13F5, 1);
    (0x1C90, 0x1CBA, 1); (0x1CBD, 0x1CBF, 1); (0x1E00, 0x1E94, 2); (0x1E9E, 0x1EFE, 2);
    (0x1F08, 0x1F0F, 1); (0x1F18, 0x1F1D, 1); (0x1F28, 0x1F2F, 1); (0x1F38, 0x1F3F, 1);
    (0x1F48, 0x1F4D, 1); (0x1F59, 0x1F5F, 2); (0x1F68, 0x1F6F, 1); (0x1FB8, 0x1FBB, 1);
    (0x1FC8, 0x1FCB, 1); (0x1FD8, 0x1FDB, 1); (0x1FE8, 0x1FEC, 1); (0x1FF8, 0x1FFB, 1);
    (0x2102, 0x2102, 1); (0x2107, 0x2107, 1); (0x210B, 0x210D, 1); (0x2110, 0x2112, 1);
    (0x2115, 0x2115, 1); (0x2119, 0x211D, 1); (0x2124, 0x212A, 2); (0x212B, 0x212D, 1);
    (0x2130, 0x2133, 1); (0x213E, 0x213F, 1); (0x2145, 0x2145, 1); (0x2183, 0x2183, 1);
    (0x2C00, 0x2C2F, 1); (0x2C60, 0x2C62, 2); (0x2C63, 0x2C64, 1); (0x2C67, 0x2C6D, 2);
    (0x2C6E, 0x2C70, 1); (0x2C72, 0x2C72, 1); (0x2C75, 0x2C75, 1); (0x2C7E, 0x2C80, 1);
    (0x2C82, 0x2CE2, 2); (0x2CEB, 0x2CED, 2); (0x2CF2, 0x2CF2, 1); (0xA640, 0xA66C, 2);
    (0xA680, 0xA69A, 2); (0xA722, 0xA72E, 2); (0xA732, 0xA76E, 2); (0xA779, 0xA77D, 2);
    (0xA77E, 0xA786, 2); (0xA78B, 0xA78D, 2); (0xA790, 0xA792, 2); (0xA796, 0xA7AA, 2);
    (0xA7AB, 0xA7AE, 1); (0xA7B0, 0xA7B4, 1); (0xA7B6, 0xA7C4, 2); (0xA7C5, 0xA7C7, 1);
    (0xA7C9, 0xA7C9, 1); (0xA7D0, 0xA7D0, 1); (0xA7D6, 0xA7D8, 2); (0xA7F5, 0xA7F5, 1);
    (0xFF21, 0xFF3A, 1); (0x10400, 0x10427, 1); (0x104B0, 0x104D3, 1); (0x10570, 0x1057A, 1);
    (0x1057C, 0x1058A, 1); (0x1058C, 0x10592, 1); (0x10594, 0x10595, 1); (0x10C80, 0x10CB2, 1);
    (0x118A0, 0x118BF, 1); (0x16E40, 0x16E5F, 1); (0x1D400, 0x1D419, 1); (0x1D434, 0x1D44D, 1);
    (0x1D468, 0x1D481, 1); (0x1D49C, 0x1D49E, 2); (0x1D49F, 0x1D4A5, 3); (0x1D4A6, 0x1D4A6, 1);
    (0x1D4A9, 0x1D4AC, 1); (0x1D4AE, 0x1D4B5, 1); (0x1D4D0, 0x1D4E9, 1); (0x1D504, 0x1D505, 1);
    (0x1D507, 0x1D50A, 1); (0x1D50D, 0x1D514, 1); (0x1D516, 0x1D51C, 1); (0x1D538, 0x1D539, 1);
    (0x1D53B, 0x1D53E, 1); (0x1D540, 0x1D544, 1); (0x1D546, 0x1D546, 1); (0x1D54A, 0x1D550, 1);
    (0x1D56C, 0x1D585, 1); (0x1D5A0, 0x1D5B9, 1); (0x1D5D4, 0x1D5ED, 1); (0x1D608, 0x1D621, 1);
    (0x1D63C, 0x1D655, 1); (0x1D670, 0x1D689, 1); (0x1D6A8, 0x1D6C0, 1); (0x1D6E2, 0x1D6FA, 1);
    (0x1D71C, 0x1D734, 1); (0x1D756, 0x1D76E, 1); (0x1D790, 0x1D7A8, 1); (0x1D7CA, 0x1D7CA, 1);
    (0x1E900, 0x1E921, 1)
  ]%N.

(** [unicode.Is(rangeTab, r)]. *)
Definition Is (rangeTab : list (N * N * N)) (r : N) : bool :=
  existsb (λ '(lo, hi, stride), (lo <=? r) && (r <=? hi) && ((r - lo) mod stride =? 0))%N
    rangeTab.

(** [unicode.IsUpper(r)] (for [r] up to [MaxLatin1] Go reads the same answer
    off its [properties] array). *)
Definition IsUpper (r : N) : bool := Is Upper r.

(** The lower-case column of [unicode.CaseRanges] above ASCII: the code
    points [Lo], [Lo + Stride], ... up to [Hi] are mapped by adding
    [Delta]. *)
Definition lowerRanges : list (N * N * N * Z) :=
  [
    (0xC0, 0xD6, 1, 32%Z); (0xD8, 0xDE, 1, 32%Z); (0x100, 0x12E, 2, 1%Z);
    (0x130, 0x130, 1, (-199)%Z); (0x132, 0x136, 2, 1%Z); (0x139, 0x147, 2, 1%Z);
    (0x14A, 0x176, 2, 1%Z); (0x178, 0x178, 1, (-121)%Z); (0x179, 0x17D, 2, 1%Z);
    (0x181, 0x181, 1, 210%Z); (0x182, 0x184, 2, 1%Z); (0x186, 0x186, 1, 206%Z);
    (0x187, 0x187, 1, 1%Z); (0x189, 0x18A, 1, 205%Z); (0x18B, 0x18B, 1, 1%Z);
    (0x18E, 0x18E, 1, 79%Z); (0x18F, 0x18F, 1, 202%Z); (0x190, 0x190, 1, 203%Z);
    (0x191, 0x191, 1, 1%Z); (0x193, 0x193, 1, 205%Z); (0x194, 0x194, 1, 207%Z);
    (0x196, 0x196, 1, 211%Z); (0x197, 0x197, 1, 209%Z); (0x198, 0x198, 1, 1%Z);
    (0x19C, 0x19C, 1, 211%Z); (0x19D, 0x19D, 1, 213%Z); (0x19F, 0x19F, 1, 214%Z);
    (0x1A0, 0x1A4, 2, 1%Z); (0x1A6, 0x1A6, 1, 218%Z); (0x1A7, 0x1A7, 1, 1%Z);
    (0x1A9, 0x1A9, 1, 218%Z); (0x1AC, 0x1AC, 1, 1%Z); (0x1AE, 0x1AE, 1, 218%Z);
    (0x1AF, 0x1AF, 1, 1%Z); (0x1B1, 0x1B2, 1, 217%Z); (0x1B3, 0x1B5, 2, 1%Z);
    (0x1B7, 0x1B7, 1, 219%Z); (0x1B8, 0x1B8, 1, 1%Z); (0x1BC, 0x1BC, 1, 1%Z);
    (0x1C4, 0x1C4, 1, 2%Z); (0x1C5, 0x1C5, 1, 1%Z); (0x1C7, 0x1C7, 1, 2%Z);
    (0x1C8, 0x1C8, 1, 1%Z); (0x1CA, 0x1CA, 1, 2%Z); (0x1CB, 0x1DB, 2, 1%Z);
    (0x1DE, 0x1EE, 2, 1%Z); (0x1F1, 0x1F1, 1, 2%Z); (0x1F2, 0x1F4, 2, 1%Z);
    (0x1F6, 0x1F6, 1, (-97)%Z); (0x1F7, 0x1F7, 1, (-56)%Z); (0x1F8, 0x21E, 2, 1%Z);
    (0x220, 0x220, 1, (-130)%Z); (0x222, 0x232, 2, 1%Z); (0x23A, 0x23A, 1, 10795%Z);
    (0x23B, 0x23B, 1, 1%Z); (0x23D, 0x23D, 1, (-163)%Z); (0x23E, 0x23E, 1, 10792%Z);
    (0x241, 0x241, 1, 1%Z); (0x243, 0x243, 1, (-195)%Z); (0x244, 0x244, 1, 69%Z);
    (0x245, 0x245, 1, 71%Z); (0x246, 0x24E, 2, 1%Z); (0x370, 0x372, 2, 1%Z);
    (0x376, 0x376, 1, 1%Z); (0x37F, 0x37F, 1, 116%Z); (0x386, 0x386, 1, 38%Z);
    (0x388, 0x38A, 1, 37%Z); (0x38C, 0x38C, 1, 64%Z); (0x38E, 0x38F, 1, 63%Z);
    (0x391, 0x3A1, 1, 32%Z); (0x3A3, 0x3AB, 1, 32%Z); (0x3CF, 0x3CF, 1, 8%Z);
    (0x3D8, 0x3EE, 2, 1%Z); (0x3F4, 0x3F4, 1, (-60)%Z); (0x3F7, 0x3F7, 1, 1%Z);
    (0x3F9, 0x3F9, 1, (-7)%Z); (0x3FA, 0x3FA, 1, 1%Z); (0x3FD, 0x3FF, 1, (-130)%Z);
    (0x400, 0x40F, 1, 80%Z); (0x410, 0x42F, 1, 32%Z); (0x460, 0x480, 2, 1%Z);
    (0x48A, 0x4BE, 2, 1%Z); (0x4C0, 0x4C0, 1, 15%Z); (0x4C1, 0x4CD, 2, 1%Z);
    (0x4D0, 0x52E, 2, 1%Z); (0x531, 0x556, 1, 48%Z); (0x10A0, 0x10C5, 1, 7264%Z);
    (0x10C7, 0x10C7, 1, 7264%Z); (0x10CD, 0x10CD, 1, 7264%Z); (0x13A0, 0x13EF, 1, 38864%Z);
    (0x13F0, 0x13F5, 1, 8%Z); (0x1C90, 0x1CBA, 1, (-3008)%Z); (0x1CBD, 0x1CBF, 1, (-3008)%Z);
    (0x1E00, 0x1E94, 2, 1%Z); (0x1E9E, 0x1E9E, 1, (-7615)%Z); (0x1EA0, 0x1EFE, 2, 1%Z);
    (0x1F08, 0x1F0F, 1, (-8)%Z); (0x1F18, 0x1F1D, 1, (-8)%Z); (0x1F28, 0x1F2F, 1, (-8)%Z);
    (0x1F38, 0x1F3F, 1, (-8)%Z); (0x1F48, 0x1F4D, 1, (-8)%Z); (0x1F59, 0x1F5F, 2, (-8)%Z);
    (0x1F68, 0x1F6F, 1, (-8)%Z); (0x1F88, 0x1F8F, 1, (-8)%Z); (0x1F98, 0x1F9F, 1, (-8)%Z);
    (0x1FA8, 0x1FAF, 1, (-8)%Z); (0x1FB8, 0x1FB9, 1, (-8)%Z); (0x1FBA, 0x1FBB, 1, (-74)%Z);
    (0x1FBC, 0x1FBC, 1, (-9)%Z); (0x1FC8, 0x1FCB, 1, (-86)%Z); (0x1FCC, 0x1FCC, 1, (-9)%Z);
    (0x1FD8, 0x1FD9, 1, (-8)%Z); (0x1FDA, 0x1FDB, 1, (-100)%Z); (0x1FE8, 0x1FE9, 1, (-8)%Z);
    (0x1FEA, 0x1FEB, 1, (-112)%Z); (0x1FEC, 0x1FEC, 1, (-7)%Z); (0x1FF8, 0x1FF9, 1, (-128)%Z);
    (0x1FFA, 0x1FFB, 1, (-126)%Z); (0x1FFC, 0x1FFC, 1, (-9)%Z); (0x2126, 0x2126, 1, (-7517)%Z);
    (0x212A, 0x212A, 1, (-8383)%Z); (0x212B, 0x212B, 1, (-8262)%Z); (0x2132, 0x2132, 1, 28%Z);
    (0x2160, 0x216F, 1, 16%Z); (0x2183, 0x2183, 1, 1%Z); (0x24B6, 0x24CF, 1, 26%Z);
    (0x2C00, 0x2C2F, 1, 48%Z); (0x2C60, 0x2C60, 1, 1%Z); (0x2C62, 0x2C62, 1, (-10743)%Z);
    (0x2C63, 0x2C63, 1, (-3814)%Z); (0x2C64, 0x2C64, 1, (-10727)%Z); (0x2C67, 0x2C6B, 2, 1%Z);
    (0x2C6D, 0x2C6D, 1, (-10780)%Z); (0x2C6E, 0x2C6E, 1, (-10749)%Z);
    (0x2C6F, 0x2C6F, 1, (-10783)%Z); (0x2C70, 0x2C70, 1, (-10782)%Z); (0x2C72, 0x2C72, 1, 1%Z);
    (0x2C75, 0x2C75, 1, 1%Z); (0x2C7E, 0x2C7F, 1, (-10815)%Z); (0x2C80, 0x2CE2, 2, 1%Z);
    (0x2CEB, 0x2CED, 2, 1%Z); (0x2CF2, 0x2CF2, 1, 1%Z); (0xA640, 0xA66C, 2, 1%Z);
    (0xA680, 0xA69A, 2, 1%Z); (0xA722, 0xA72E, 2, 1%Z); (0xA732, 0xA76E, 2, 1%Z);
    (0xA779, 0xA77B, 2, 1%Z); (0xA77D, 0xA77D, 1, (-35332)%Z); (0xA77E, 0xA786, 2, 1%Z);
    (0xA78B, 0xA78B, 1, 1%Z); (0xA78D, 0xA78D, 1, (-42280)%Z); (0xA790, 0xA792, 2, 1%Z);
    (0xA796, 0xA7A8, 2, 1%Z); (0xA7AA, 0xA7AA, 1, (-42308)%Z); (0xA7AB, 0xA7AB, 1, (-42319)%Z);
    (0xA7AC, 0xA7AC, 1, (-42315)%Z); (0xA7AD, 0xA7AD, 1, (-42305)%Z);
    (0xA7AE, 0xA7AE, 1, (-42308)%Z); (0xA7B0, 0xA7B0, 1, (-42258)%Z);
    (0xA7B1, 0xA7B1, 1, (-42282)%Z); (0xA7B2, 0xA7B2, 1, (-42261)%Z);
    (0xA7B3, 0xA7B3, 1, 928%Z); (0xA7B4, 0xA7C2, 2, 1%Z); (0xA7C4, 0xA7C4, 1, (-48)%Z);
    (0xA7C5, 0xA7C5, 1, (-42307)%Z); (0xA7C6, 0xA7C6, 1, (-35384)%Z); (0xA7C7, 0xA7C9, 2, 1%Z);
    (0xA7D0, 0xA7D0, 1, 1%Z); (0xA7D6, 0xA7D8, 2, 1%Z); (0xA7F5, 0xA7F5, 1, 1%Z);
    (0xFF21, 0xFF3A, 1, 32%Z); (0x10400, 0x10427, 1, 40%Z); (0x104B0, 0x104D3, 1, 40%Z);
    (0x10570, 0x1057A, 1, 39%Z); (0x1057C, 0x1058A, 1, 39%Z); (0x1058C, 0x10592, 1, 39%Z);
    (0x10594, 0x10595, 1, 39%Z); (0x10C80, 0x10CB2, 1, 64%Z); (0x118A0, 0x118BF, 1, 32%Z);
    (0x16E40, 0x16E5F, 1, 32%Z); (0x1E900, 0x1E921, 1, 34%Z)
  ]%N.

(** [unicode.ToLower(r)]. *)
Definition ToLower (r : N) : N :=
  if (r <=? 0x7F)%N then
    if ((0x41 <=? r) && (r <=? 0x5A))%N then (r + 0x20)%N else r
  else
    match find (λ '(lo, hi, stride, _),
                  (lo <=? r) && (r <=? hi) && ((r - lo) mod stride =? 0))%N lowerRanges with
    | Some (_, _, _, delta) => Z.to_N (Z.of_N r + delta)
    | None => r
    end.

End unicode.

(** Package [strconv].  The only integer printed is the context's counter,
    which counts up from zero. *)
Module strconv.

Definition Itoa (n : nat) : string := pretty n.

End strconv.

(** Package [reflect]. *)
Module reflect.

(** [reflect.Kind], in the order of the Go declaration. *)
Inductive Kind :=
| Invalid | Bool | Int | Int8 | Int16 | Int32 | Int64
| Uint | Uint8 | Uint16 | Uint32 | Uint64 | Uintptr
| Float32 | Float64 | Complex64 | Complex128
| Array | Chan | Func | Interface | Map | Ptr | Slice
| String | Struct | UnsafePointer.

#[global] Instance Kind_eq_dec : EqDecision Kind.
Proof. solve_decision. Defined.

(** [Kind.String()]. *)
Definition Kind_String (k : Kind) : string :=
  match k with
  | Invalid => "invalid" | Bool => "bool" | Int => "int" | Int8 => "int8"
  | Int16 => "int16" | Int32 => "int32" | Int64 => "int64"
  | Uint => "uint" | Uint8 => "uint8" | Uint16 => "uint16"
  | Uint32 => "uint32" | Uint64 => "uint64" | Uintptr => "uintptr"
  | Float32 => "float32" | Float64 => "float64"
  | Complex64 => "complex64" | Complex128 => "complex128"
  | Array => "array" | Chan => "chan" | Func => "func"
  | Interface => "interface" | Map => "map" | Ptr => "ptr"
  | Slice => "slice" | String => "string" | Struct => "struct"
  | UnsafePointer => "unsafe.Pointer"
  end.

(** A struct tag, already cut into its key/value pairs
    ([`json:"name,omitempty" xml:"n"`] is [[("json", "name,omitempty");
    ("xml", "n")]]).  [StructTag.Get] returns the value of the first pair
    with the key, or the empty string. *)
Definition StructTag := list (string * string).

Fixpoint Get (tag : StructTag) (key : string) : string :=
  match tag with
  | [] => ""
  | (k, v) :: tag' => if decide (k = key) then v else Get tag' key
  end.

(** [reflect.StructField]: the three members the generator reads.  The
    field's type is a reference to its descriptor (never nil). *)
Record StructField := mkField {
  Name : string;
  Type' : positive;
  Tag : StructTag;
}.

#[global] Instance StructField_eq_dec : EqDecision StructField.
Proof. solve_decision. Defined.

(** The descriptor of one type (Go's [rtype]): what the methods of
    [reflect.Type] return on it. *)
Record rtype := mkType {
  rKind : Kind;
  rString : string;              (* Type.String() *)
  rName : string;                (* Type.Name(), empty for an unnamed type *)
  rElem : option positive;       (* element type, for the kinds that have one *)
  rFields : list StructField;    (* fields in declaration order, for a struct *)
}.

(** The table of descriptors.  A reference outside the table denotes no
    type and reads as the zero descriptor, of kind [Invalid]. *)
Abbreviation Universe := (gmap positive rtype).

Definition invalid : rtype := mkType Invalid "" "" None [].

Definition descr (U : Universe) (t : positive) : rtype :=
  default invalid (U !! t).

(** A [reflect.Type] value is an interface: nil or a reference. *)
Definition Type_ := option positive.

Section methods.
Context (U : Universe).

Definition Type_Kind (t : positive) : Kind := rKind (descr U t).
Definition Type_String (t : positive) : string := rString (descr U t).
Definition Type_Name (t : positive) : string := rName (descr U t).

(** [Type.Elem()] panics on a type without element type ([None]). *)
Definition Type_Elem (t : positive) : option positive := rElem (descr U t).

(** [Type.NumField()] and [Type.Field(i)] panic unless the kind is
    [Struct] ([None]); otherwise [Field(0)], ..., [Field(NumField()-1)]. *)
Definition Type_Fields (t : positive) : option (list StructField) :=
  if decide (Type_Kind t = Struct) then Some (rFields (descr U t)) else None.
End methods.

(** The kinds on which [Elem] is defined. *)
Definition has_elem (k : Kind) : bool :=
  match k with
  | Array | Chan | Map | Ptr | Slice => true
  | _ => false
  end.

(** Go's typing of descriptors: a type of a kind with elements has an
    element type. *)
Definition wf_rtype (r : rtype) : Prop :=
  has_elem (rKind r) = true → is_Some (rElem r).

Definition wf_universe (U : Universe) : Prop :=
  map_Forall (λ _ r, wf_rtype r) U.

End reflect.

(** ** The generator *)

Definition typeArray : string := "array".

(** [toSnakeCase]: the loop over the iterations of [range s], with the
    [strings.Builder] as accumulator. *)
Fixpoint toSnakeCase_loop (iterations : list (nat * N)) (result : string) : string :=
  match iterations with
  | [] => result
  | (i, r) :: iterations' =>
      let result :=
        if unicode.IsUpper r then
          let result := if decide (0 < i) then result +:+ "_" else result in
          result +:+ utf8.EncodeRune (unicode.ToLower r)
        else result +:+ utf8.EncodeRune r in
      toSnakeCase_loop iterations' result
  end.

Definition toSnakeCase (s : string) : string := toSnakeCase_loop (rangeString s) "".

(** [PropertyDefinition].  A nil map and an empty map are both the empty map
    (the generator only takes [len] of them and both are omitted from the
    JSON output); a nil slice is the empty list. *)
Inductive PropertyDefinition := mkProperty {
  Type' : string;
  Description : string;
  Format : string;
  Required : list string;
  Items : option PropertyDefinition;
  Properties : gmap string PropertyDefinition;
  Ref : string;
}.

(** The zero value of [PropertyDefinition]. *)
Definition zeroProperty : PropertyDefinition :=
  mkProperty "" "" "" [] None ∅ "".

(** [Schema]. *)
Module Schema.
Record t := mk {
  Schema : string;
  Title : string;
  Type' : string;
  Required : list string;
  Properties : gmap string PropertyDefinition;
  Definitions : gmap string PropertyDefinition;
}.
End Schema.

(** [fieldInfo]. *)
Module fieldInfo.
Record t := mk {
  Field : reflect.StructField;
  TagName : string;
  TypeName : string;
  Format : string;
  SliceFormat : string;
  SliceType : string;
  SkipNested : bool;
  IsArray : bool;
}.
End fieldInfo.

(** [schemaContext].  [visited] holds the types mapped to [true]; the Go
    [int]s [counter] and [nestedCounter] only count up from zero, one step per
    anonymous definition and per nesting level, and are unbounded naturals
    here. *)
Record schemaContext := mkContext {
  visited : gset positive;
  definitions : gmap string PropertyDefinition;
  counter : nat;
}.

Definition newContext : schemaContext := mkContext ∅ ∅ 0.

(** ** Control: panics, fuel and the context *)

(** The outcome of running a piece of the generator: a value, a Go run-time
    panic, or the recursion budget of the model used up. *)
Inductive outcome (A : Type) :=
| Ok (a : A)
| Panic
| OutOfFuel.
Arguments Ok {A} a.
Arguments Panic {A}.
Arguments OutOfFuel {A}.

(** Methods of [*schemaContext] read and update the context. *)
Definition M (A : Type) : Type := schemaContext → outcome (A * schemaContext).

Definition ret {A} (a : A) : M A := λ ctx, Ok (a, ctx).

Definition bind {A B} (m : M A) (k : A → M B) : M B :=
  λ ctx, match m ctx with
         | Ok (a, ctx') => k a ctx'
         | Panic => Panic
         | OutOfFuel => OutOfFuel
         end.

(** A library call that may panic. *)
Definition try {A} (o : option A) : M A :=
  λ ctx, match o with Some a => Ok (a, ctx) | None => Panic end.

Notation "'do' x <- m ; k" := (bind m (λ x, k))
  (at level 10, x pattern, m at level 100, k at level 200,
   format "'[v' 'do'  x  <-  m ; '/' k ']'").

(** ** Classification of type names *)

(** The three members of an entry of [typeMapping]. *)
Record mapping := mkMapping {
  jsonType : string;
  format : string;
  skipNested : bool;
}.

Definition typeMapping : gmap string mapping :=
  list_to_map [
    ("uuid.UUID",        mkMapping "string" "uuid" true);
    ("EventName",        mkMapping "string" "" true);
    ("*string",          mkMapping "string" "" true);
    ("string",           mkMapping "string" "" true);
    ("float64",          mkMapping "number" "" true);
    ("*float64",         mkMapping "number" "" true);
    ("float32",          mkMapping "number" "" true);
    ("*float32",         mkMapping "number" "" true);
    ("int",              mkMapping "integer" "" true);
    ("*int",             mkMapping "integer" "" true);
    ("uint",             mkMapping "integer" "" true);
    ("*uint",            mkMapping "integer" "" true);
    ("uint8",            mkMapping "integer" "" true);
    ("*uint8",           mkMapping "integer" "" true);
    ("uint16",           mkMapping "integer" "" true);
    ("*uint16",          mkMapping "integer" "" true);
    ("uint32",           mkMapping "integer" "" true);
    ("*uint32",          mkMapping "integer" "" true);
    ("uint64",           mkMapping "integer" "" true);
    ("*uint64",          mkMapping "integer" "" true);
    ("int8",             mkMapping "integer" "" true);
    ("*int8",            mkMapping "integer" "" true);
    ("int16",            mkMapping "integer" "" true);
    ("*int16",           mkMapping "integer" "" true);
    ("int32",            mkMapping "integer" "" true);
    ("*int32",           mkMapping "integer" "" true);
    ("int64",            mkMapping "integer" "" true);
    ("*int64",           mkMapping "integer" "" true);
    ("bool",             mkMapping "boolean" "" true);
    ("*bool",            mkMapping "boolean" "" true);
    ("time.Time",        mkMapping "string" "date-time" true);
    ("*time.Time",       mkMapping "string" "date-time" true);
    ("interface{}",      mkMapping "" "" false);
    ("*interface{}",     mkMapping "" "" false);
    ("any",              mkMapping "" "" false);
    ("json.RawMessage",  mkMapping "string" "" true);
    ("*json.RawMessage", mkMapping "string" "" true);
    ("[]byte",           mkMapping "string" "byte" true);
    ("*[]byte",          mkMapping "string" "byte" true)
  ].

(** The part of [convertToEventName] that looks at the name only: the
    checks before [if refType != nil], in their order.  [None] when none of
    them returns. *)
Definition classifyName (defType : string) : option (string * string * bool) :=
  if decide (defType = "interface{}" ∨ defType = "*interface{}") then
    Some ("", "", true)
  else match typeMapping !! defType with
  | Some m => Some (jsonType m, format m, skipNested m)
  | None =>
      if strings.HasPrefix defType "map[" then Some ("object", "", true)
      else if strings.HasPrefix defType "chan " || strings.HasPrefix defType "<-chan "
              || strings.HasPrefix defType "chan<- " then Some ("string", "", true)
      else if strings.HasPrefix defType "func(" then Some ("string", "", true)
      else None
  end.

(** [convertToEventName(defType, nil)]: without a type to look at, a name
    that is not recognised is returned unchanged and not terminal. *)
Definition convertToEventName_nil (defType : string) : string * string * bool :=
  default (defType, "", false) (classifyName defType).

(** [convertToEventName(defType, refType)].  Its two recursive calls pass
    [nil] and so are calls of [convertToEventName_nil].  [None] is a panic of
    [f.Elem()]. *)
Definition convertToEventName (U : reflect.Universe) (defType : string)
    (refType : option positive) : option (string * string * bool) :=
  match classifyName defType with
  | Some r => Some r
  | None =>
      match refType with
      | Some f =>
          let kind := reflect.Type_Kind U f in
          if decide (kind = reflect.Interface) then Some ("", "", true)
          else if decide (reflect.Kind_String kind ≠ "ptr") then
            Some (convertToEventName_nil (reflect.Kind_String kind))
          else
            e ← reflect.Type_Elem U f;
            if decide (reflect.Type_Kind U e ≠ reflect.Struct) then
              Some (convertToEventName_nil (reflect.Kind_String (reflect.Type_Kind U e)))
            else Some (defType, "", false)
      | None => Some (defType, "", false)
      end
  end.

(** ** Required keys *)

(** The body of the loop of [GenerateRequired] for one field: the list
    [require] after the field. *)
Definition requiredStep (U : reflect.Universe) (require : list string)
    (field : reflect.StructField) : option (list string) :=
  let tag := reflect.Get (reflect.Tag field) "json" in
  if decide (tag = "-") then Some require
  else if decide (reflect.Type_Kind U (reflect.Type' field) = reflect.Slice) then Some require
  else if decide (reflect.Type_Kind U (reflect.Type' field) ≠ reflect.Ptr) then
    match strings.Split tag ","%char with
    | [] => None
    | tagName :: rest =>
        let tagName := if decide (String.length tagName = 0) then toSnakeCase (reflect.Name field)
                       else tagName in
        let omitempty := strings.Join rest "," in
        if negb (strings.Contains omitempty "omitempty") then Some (require ++ [tagName])
        else Some require
    end
  else
    match strings.Split tag ","%char with
    | [] => None
    | tagName :: _ =>
        if decide (tagName = "tags") then Some (require ++ [tagName]) else Some require
    end.

Fixpoint requiredLoop (U : reflect.Universe) (fields : list reflect.StructField)
    (require : list string) : option (list string) :=
  match fields with
  | [] => Some require
  | field :: fields' =>
      require' ← requiredStep U require field;
      requiredLoop U fields' require'
  end.

(** [GenerateRequired(object, nestedObject)].  [object] is only passed to
    [reflect.TypeOf], so the first argument here is that type: nil for a nil
    interface value.  [structOnly] is the code after the switch (the check
    for a struct and the loop); the check for nil after [t.Elem()] never
    fires, as [Elem] returns a type or panics.  A result [None] is a panic. *)
Definition GenerateRequired (U : reflect.Universe)
    (object nestedObject : reflect.Type_) : option (list string) :=
  let t := object in
  let t := if decide (nestedObject ≠ None) then nestedObject else t in
  let require : list string := [] in
  match t with
  | None => Some require
  | Some t =>
      let structOnly (t : positive) :=
        if decide (reflect.Type_Kind U t ≠ reflect.Struct) then Some require
        else fields ← reflect.Type_Fields U t; requiredLoop U fields require in
      match reflect.Type_Kind U t with
      | reflect.Ptr =>
          t ← reflect.Type_Elem U t;
          structOnly t
      | reflect.String | reflect.Slice | reflect.Int | reflect.Bool
      | reflect.Interface | reflect.Map | reflect.Chan | reflect.Func
      | reflect.Float32 | reflect.Float64
      | reflect.Int8 | reflect.Int16 | reflect.Int32 | reflect.Int64
      | reflect.Uint | reflect.Uint8 | reflect.Uint16 | reflect.Uint32
      | reflect.Uint64 => Some require
      | _ => structOnly t
      end
  end.

(** ** Field analysis *)

Module Import fieldInfoUpdates.
Import fieldInfo.
Definition withTypeName (v : string) (i : t) : t :=
  mk (Field i) (TagName i) v (Format i) (SliceFormat i) (SliceType i) (SkipNested i) (IsArray i).
Definition withFormat (v : string) (i : t) : t :=
  mk (Field i) (TagName i) (TypeName i) v (SliceFormat i) (SliceType i) (SkipNested i) (IsArray i).
Definition withSliceFormat (v : string) (i : t) : t :=
  mk (Field i) (TagName i) (TypeName i) (Format i) v (SliceType i) (SkipNested i) (IsArray i).
Definition withSliceType (v : string) (i : t) : t :=
  mk (Field i) (TagName i) (TypeName i) (Format i) (SliceFormat i) v (SkipNested i) (IsArray i).
Definition withSkipNested (v : bool) (i : t) : t :=
  mk (Field i) (TagName i) (TypeName i) (Format i) (SliceFormat i) (SliceType i) v (IsArray i).
Definition withIsArray (v : bool) (i : t) : t :=
  mk (Field i) (TagName i) (TypeName i) (Format i) (SliceFormat i) (SliceType i) (SkipNested i) v.
End fieldInfoUpdates.

(** [fieldInfo{Field: field, TagName: tagName}]. *)
Definition newFieldInfo (field : reflect.StructField) (tagName : string) : fieldInfo.t :=
  fieldInfo.mk field tagName "" "" "" "" false false.

Section analysis.
Context (U : reflect.Universe).

(** [handleSliceType]. *)
Definition handleSliceType (info : fieldInfo.t) (fieldType : positive) : option fieldInfo.t :=
  elemType ← reflect.Type_Elem U fieldType;
  let info := withSliceType (reflect.Kind_String (reflect.Type_Kind U elemType)) info in
  let info := if decide (fieldInfo.SliceType info = "ptr")
              then withSliceType (reflect.Type_String U elemType) info else info in
  '(sliceType, sliceFormat, skip) ← convertToEventName U (fieldInfo.SliceType info) None;
  Some (withSkipNested skip (withSliceFormat sliceFormat (withSliceType sliceType info))).

(** [handlePointerType]. *)
Definition handlePointerType (info : fieldInfo.t) (fieldType : positive) : option fieldInfo.t :=
  elemType ← reflect.Type_Elem U fieldType;
  if decide (reflect.Type_Kind U elemType = reflect.Slice) then
    let info := withTypeName typeArray (withIsArray true info) in
    elemElem ← reflect.Type_Elem U elemType;
    let info := withSliceType (reflect.Type_String U elemElem) info in
    '(sliceType, sliceFormat, skip) ←
      convertToEventName U (fieldInfo.SliceType info) (Some fieldType);
    Some (withSkipNested skip (withSliceFormat sliceFormat (withSliceType sliceType info)))
  else
    '(typeName, format, skip) ←
      convertToEventName U (fieldInfo.TypeName info) (Some fieldType);
    Some (withSkipNested skip (withFormat format (withTypeName typeName info))).

(** [analyzeFieldType]. *)
Definition analyzeFieldType (info : fieldInfo.t) : option fieldInfo.t :=
  let fieldType := reflect.Type' (fieldInfo.Field info) in
  let info := withTypeName (reflect.Type_String U fieldType) info in
  if decide (fieldInfo.TypeName info = "interface{}") then
    Some (withSkipNested true (withFormat "" (withTypeName "" info)))
  else if decide (fieldInfo.TypeName info = "[]byte" ∨ fieldInfo.TypeName info = "[]uint8") then
    Some (withIsArray false (withSkipNested true (withFormat "byte" (withTypeName "string" info))))
  else
    match reflect.Type_Kind U fieldType with
    | reflect.Slice =>
        handleSliceType (withTypeName typeArray (withIsArray true info)) fieldType
    | reflect.Ptr => handlePointerType info fieldType
    | _ =>
        '(typeName, format, skip) ←
          convertToEventName U (fieldInfo.TypeName info) (Some fieldType);
        Some (withSkipNested skip (withFormat format (withTypeName typeName info)))
    end.

(** [extractFieldInfo]. *)
Definition extractFieldInfo (field : reflect.StructField) : option fieldInfo.t :=
  let tag := reflect.Get (reflect.Tag field) "json" in
  match strings.Split tag ","%char with
  | [] => None
  | tagName :: _ =>
      if decide (tagName = "-") then Some (newFieldInfo field "-")
      else
        let tagName := if decide (String.length tagName = 0)
                       then toSnakeCase (reflect.Name field) else tagName in
        analyzeFieldType (newFieldInfo field tagName)
  end.

(** ** Building properties *)

(** [shouldUseDefinition]. *)
Definition shouldUseDefinition (fieldType : positive)
    (nested : gmap string PropertyDefinition) : bool :=
  bool_decide (2 < size nested) && bool_decide (reflect.Type_Kind U fieldType = reflect.Struct).

(** [createDefinitionReference]. *)
Definition createDefinitionReference (info : fieldInfo.t)
    (nested : gmap string PropertyDefinition) (required : list string) : M PropertyDefinition :=
  λ ctx,
    let defName := reflect.Type_Name U (reflect.Type' (fieldInfo.Field info)) in
    let '(defName, ctx) :=
      if decide (defName = "") then
        ("AnonymousStruct" +:+ strconv.Itoa (counter ctx),
         mkContext (visited ctx) (definitions ctx) (S (counter ctx)))
      else (defName, ctx) in
    let ctx :=
      match definitions ctx !! defName with
      | Some _ => ctx
      | None =>
          let typeName := "object" in
          let typeName := if decide (0 < size nested) then "object" else typeName in
          mkContext (visited ctx)
            (<[defName := mkProperty typeName (reflect.Name (fieldInfo.Field info)) ""
                            required None nested ""]> (definitions ctx))
            (counter ctx)
      end in
    Ok (mkProperty "" (reflect.Name (fieldInfo.Field info)) "" [] None ∅
          ("#/$defs/" +:+ defName), ctx).

(** [buildArrayProperty]. *)
Definition buildArrayProperty (info : fieldInfo.t)
    (nested : gmap string PropertyDefinition) (required : list string) : PropertyDefinition :=
  let sliceTypeName := fieldInfo.SliceType info in
  let sliceTypeName := if decide (0 < size nested) then "object" else sliceTypeName in
  let items := mkProperty sliceTypeName (reflect.Name (fieldInfo.Field info))
                 (fieldInfo.SliceFormat info) required None nested "" in
  mkProperty typeArray (reflect.Name (fieldInfo.Field info)) (fieldInfo.Format info)
    required (Some items) ∅ "".

(** [buildObjectProperty]. *)
Definition buildObjectProperty (info : fieldInfo.t)
    (nested : gmap string PropertyDefinition) (required : list string) : PropertyDefinition :=
  let typeName := fieldInfo.TypeName info in
  let typeName := if decide (0 < size nested ∧ typeName ≠ typeArray) then "object"
                  else typeName in
  mkProperty typeName (reflect.Name (fieldInfo.Field info)) (fieldInfo.Format info)
    required None nested "".

(** The three functions of the walk call each other; [buildProperties] is
    the one that is entered again at each nesting level, and the other two
    are defined over it. *)
Section walk.
Variable buildProperties :
  reflect.Type_ → nat → M (gmap string PropertyDefinition * list string).

(** [buildFieldProperty].  [nestedCounter] is the function's own copy of
    the caller's value: the increment is seen by the nested call, the
    reset by nobody. *)
Definition buildFieldProperty (info : fieldInfo.t) (nestedCounter : nat)
    : M PropertyDefinition :=
  do (nested, required, nestedCounter) <-
    (if negb (fieldInfo.SkipNested info) then
       let nestedCounter := S nestedCounter in
       do (nested, required) <-
         buildProperties (Some (reflect.Type' (fieldInfo.Field info))) nestedCounter;
       let nestedCounter := 0 in
       ret (nested, required, nestedCounter)
     else ret (∅, [], nestedCounter));
  if shouldUseDefinition (reflect.Type' (fieldInfo.Field info)) nested then
    createDefinitionReference info nested required
  else if fieldInfo.IsArray info then ret (buildArrayProperty info nested required)
  else ret (buildObjectProperty info nested required).

(** The loop of [reflectStruct] over the fields that are left. *)
Fixpoint reflectStruct_loop (fields : list reflect.StructField) (nestedCounter : nat)
    (properties : gmap string PropertyDefinition) : M (gmap string PropertyDefinition) :=
  match fields with
  | [] => ret properties
  | field :: fields' =>
      do fieldInfo <- try (extractFieldInfo field);
      if decide (fieldInfo.TagName fieldInfo = "-" ∨ fieldInfo.TagName fieldInfo = "") then
        reflectStruct_loop fields' nestedCounter properties
      else
        do property <- buildFieldProperty fieldInfo nestedCounter;
        reflectStruct_loop fields' nestedCounter
          (<[fieldInfo.TagName fieldInfo := property]> properties)
  end.

(** [reflectStruct]. *)
Definition reflectStruct (t : positive) (nestedCounter : nat)
    : M (gmap string PropertyDefinition) :=
  do fields <- try (reflect.Type_Fields U t);
  reflectStruct_loop fields nestedCounter ∅.

(** The four statements that end each case of [buildProperties]: stop at
    a struct that was seen when more than one level deep, else mark it
    and reflect it. *)
Definition visitStruct (t : positive) (nestedCounter : nat)
    : M (gmap string PropertyDefinition) :=
  λ ctx,
    if decide (t ∈ visited ctx ∧ 1 < nestedCounter) then Ok (∅, ctx)
    else reflectStruct t nestedCounter
           (mkContext ({[t]} ∪ visited ctx) (definitions ctx) (counter ctx)).

(** One level of [buildProperties].  The second component of the first
    result is the function's variable [t] as it is after the switch: the
    cases declare their own [t], and only the pointer case assigns the
    outer one. *)
Definition buildProperties_body (t : reflect.Type_) (nestedCounter : nat)
    : M (gmap string PropertyDefinition * list string) :=
  do t0 <- try t;
  do (properties, t) <-
    match reflect.Type_Kind U t0 with
    | reflect.Slice =>
        do t <- try (reflect.Type_Elem U t0);
        do t <- (if decide (reflect.Type_Kind U t = reflect.Ptr)
                 then try (reflect.Type_Elem U t) else ret t);
        if decide (reflect.Type_Kind U t ≠ reflect.Struct) then ret (∅, t0)
        else do properties <- visitStruct t nestedCounter; ret (properties, t0)
    | reflect.Struct =>
        do properties <- visitStruct t0 nestedCounter; ret (properties, t0)
    | reflect.Ptr =>
        do e <- try (reflect.Type_Elem U t0);
        do t1 <- (if decide (reflect.Type_Kind U e = reflect.Slice) then
                    do ee <- try (reflect.Type_Elem U e);
                    ret (if decide (reflect.Type_Kind U ee = reflect.Struct) then e else t0)
                  else ret t0);
        do t <- try (reflect.Type_Elem U t1);
        if decide (reflect.Type_Kind U t ≠ reflect.Struct) then ret (∅, t1)
        else do properties <- visitStruct t nestedCounter; ret (properties, t1)
    | _ => ret (∅, t0)
    end;
  do required <- try (GenerateRequired U None (Some t));
  ret (properties, required).
End walk.

(** [buildProperties], by the number of nesting levels it may still
    enter. *)
Fixpoint buildProperties (fuel : nat) (t : reflect.Type_) (nestedCounter : nat)
    : M (gmap string PropertyDefinition * list string) :=
  match fuel with
  | 0 => λ _, OutOfFuel
  | S fuel' => buildProperties_body (buildProperties fuel') t nestedCounter
  end.

(** Levels that suffice for every walk over [U] (theorem
    [buildProperties_enough_fuel]). *)
Definition levels : nat := size U + 3.

(** [GenerateProperties].  The argument is [reflect.TypeOf(object)]. *)
Definition GenerateProperties (object : reflect.Type_)
    : outcome (gmap string PropertyDefinition) :=
  match buildProperties levels object 0 newContext with
  | Ok ((properties, _), _) => Ok properties
  | Panic => Panic
  | OutOfFuel => OutOfFuel
  end.

(** [GenerateSchema]. *)
Definition GenerateSchema (object : reflect.Type_) (title schemaURL : string)
    : outcome Schema.t :=
  match buildProperties levels object 0 newContext with
  | Ok ((properties, _), ctx) =>
      match GenerateRequired U object None with
      | Some required =>
          Ok (Schema.mk schemaURL title "object" required properties
                (if decide (0 < size (definitions ctx)) then definitions ctx else ∅))
      | None => Panic
      end
  | Panic => Panic
  | OutOfFuel => OutOfFuel
  end.
End analysis.


(** ** The vocabulary of the specification *)

(** What the two traversals read off a field's [json] tag. *)
Definition jsonTag (field : reflect.StructField) : string :=
  reflect.Get (reflect.Tag field) "json".

(** The name part of the tag: the text before the first comma. *)
Definition tagName (field : reflect.StructField) : string :=
  hd "" (strings.Split (jsonTag field) ","%char).

(** The modifiers of the tag: the text after the first comma. *)
Definition tagOptions (field : reflect.StructField) : string :=
  strings.Join (tl (strings.Split (jsonTag field) ","%char)) ",".

(** The external key of a field, as the property walk resolves it: the
    explicit name, else the case-converted identifier. *)
Definition externalKey (field : reflect.StructField) : string :=
  if decide (tagName field = "") then toSnakeCase (reflect.Name field) else tagName field.

(** The skip marker, as the property walk reads it. *)
Definition skipped (field : reflect.StructField) : Prop := tagName field = "-".

(** The omit-if-empty marker, as [GenerateRequired] reads it. *)
Definition omitIfEmpty (field : reflect.StructField) : Prop :=
  strings.Contains (tagOptions field) "omitempty" = true.

(** The shapes of a field's type.  A sequence is a slice or a fixed-size
    array. *)
Definition sliceShaped (U : reflect.Universe) (field : reflect.StructField) : Prop :=
  reflect.Type_Kind U (reflect.Type' field) = reflect.Slice.

Definition arrayShaped (U : reflect.Universe) (field : reflect.StructField) : Prop :=
  reflect.Type_Kind U (reflect.Type' field) = reflect.Array.

Definition sequenceShaped (U : reflect.Universe) (field : reflect.StructField) : Prop :=
  sliceShaped U field ∨ arrayShaped U field.

Definition pointerShaped (U : reflect.Universe) (field : reflect.StructField) : Prop :=
  reflect.Type_Kind U (reflect.Type' field) = reflect.Ptr.

(** A pointer to a slice, to a fixed-size array, to a sequence. *)
Definition pointerToSlice (U : reflect.Universe) (field : reflect.StructField) : Prop :=
  pointerShaped U field ∧
  ∃ e, reflect.Type_Elem U (reflect.Type' field) = Some e ∧
       reflect.Type_Kind U e = reflect.Slice.

Definition pointerToArray (U : reflect.Universe) (field : reflect.StructField) : Prop :=
  pointerShaped U field ∧
  ∃ e, reflect.Type_Elem U (reflect.Type' field) = Some e ∧
       reflect.Type_Kind U e = reflect.Array.

Definition pointerToSequence (U : reflect.Universe) (field : reflect.StructField) : Prop :=
  pointerToSlice U field ∨ pointerToArray U field.

(** A raw byte blob: the type [[]byte], which [reflect] prints as
    [[]uint8]. *)
Definition byteBlob (U : reflect.Universe) (field : reflect.StructField) : Prop :=
  reflect.Type_String U (reflect.Type' field) = "[]byte" ∨
  reflect.Type_String U (reflect.Type' field) = "[]uint8".

(** A field whose type the classifier settles by its printed name, before
    it looks at the kind: the name is an entry of the type table, starts like
    a map, channel or function type, or is that of the byte blob. *)
Definition classifiedByName (U : reflect.Universe) (field : reflect.StructField) : Prop :=
  classifyName (reflect.Type_String U (reflect.Type' field)) ≠ None ∨ byteBlob U field.

(** The case conversion in the words of the specification, on the letters
    (the runes) of the identifier: the first letter is lower-cased when it is
    an uppercase letter, and each later uppercase letter is replaced by an
    underscore and its lowercase form, one letter at a time; every other
    letter is written as it is. *)
Definition letters (s : string) : list N := (rangeString s).*2.

Definition snakeFirst (r : N) : string :=
  if unicode.IsUpper r then utf8.EncodeRune (unicode.ToLower r) else utf8.EncodeRune r.

Definition snakeLetter (r : N) : string :=
  if unicode.IsUpper r then "_" +:+ utf8.EncodeRune (unicode.ToLower r)
  else utf8.EncodeRune r.

Fixpoint snakeTail (rs : list N) : string :=
  match rs with
  | [] => ""
  | r :: rs' => snakeLetter r +:+ snakeTail rs'
  end.

Definition snakeCaseSpec (s : string) : string :=
  match letters s with
  | [] => ""
  | r :: rs => snakeFirst r +:+ snakeTail rs
  end.

(** ** Type tables for the examples *)

Module Examples.

(** Descriptors as the Go compiler lays them out. *)
Definition basic (k : reflect.Kind) : reflect.rtype :=
  reflect.mkType k (reflect.Kind_String k) (reflect.Kind_String k) None [].

Definition pointerTo (elemString : string) (elem : positive) : reflect.rtype :=
  reflect.mkType reflect.Ptr ("*" +:+ elemString) "" (Some elem) [].

Definition sliceOf (elemString : string) (elem : positive) : reflect.rtype :=
  reflect.mkType reflect.Slice ("[]" +:+ elemString) "" (Some elem) [].

Definition struct (name : string) (fields : list reflect.StructField) : reflect.rtype :=
  reflect.mkType reflect.Struct ("schematic." +:+ name) name None fields.

(** A field with a [json] tag, and a field without any tag. *)
Definition tagged (name : string) (type : positive) (json : string) : reflect.StructField :=
  reflect.mkField name type [("json", json)].

Definition untagged (name : string) (type : positive) : reflect.StructField :=
  reflect.mkField name type [].

(** The predeclared types used below. *)
Definition tString : positive := 1.
Definition tInt : positive := 2.
Definition tUint8 : positive := 3.
Definition tAny : positive := 4.
Definition tStringPtr : positive := 5.
Definition tBytes : positive := 6.
Definition tStringSlice : positive := 7.

Definition predeclared : list (positive * reflect.rtype) :=
  [ (tString, basic reflect.String);
    (tInt, basic reflect.Int);
    (tUint8, basic reflect.Uint8);
    (tAny, reflect.mkType reflect.Interface "interface {}" "" None []);
    (tStringPtr, pointerTo "string" tString);
    (tBytes, sliceOf "uint8" tUint8);
    (tStringSlice, sliceOf "string" tString) ].

End Examples.

Module Plain.
Import Examples.

(** Only predeclared types. *)
Definition U : reflect.Universe := list_to_map predeclared.

(** [XMLHttpRequest string], without a tag. *)
Definition snakeField : reflect.StructField := untagged "XMLHttpRequest" tString.

Definition snakeInfo : fieldInfo.t :=
  fieldInfo.mk snakeField "x_m_l_http_request" "string" "" "" "" true false.

(** [ByteSlice []byte `json:"byte_slice"`]. *)
Definition blobField : reflect.StructField := tagged "ByteSlice" tBytes "byte_slice".

End Plain.

(** The value of an outcome, for the examples. *)
Definition valueOr {A} (o : outcome A) (d : A) : A :=
  match o with Ok a => a | _ => d end.

Module Nested.
Import Examples.

Definition tTags : positive := 10.
Definition tTagsPtr : positive := 11.
Definition tPair : positive := 12.
Definition tEvent : positive := 13.
Definition tRoot : positive := 14.
Definition tSimple : positive := 20.
Definition tMain : positive := 21.
Definition tOuter : positive := 22.

(** [[
type EventTags struct {
        EventName    string `json:"event_name"`
        EventVersion string `json:"event_version"`
        EventID      string `json:"event_id"`
}
type Pair struct {
        A EventTags `json:"a"`
        B EventTags `json:"b"`
}
type Event struct { Body Pair `json:"body"` }
type Root struct { Tags *EventTags `json:"tags_ptr"` }

type Simple struct { X string `json:"x"` }
type Main struct {
        First  Simple `json:"first"`
        Second Simple `json:"second"`
}
type Outer struct { Body Main `json:"body"` }
]] *)
Definition U : reflect.Universe :=
  list_to_map (predeclared ++
    [ (tTags, struct "EventTags"
         [ tagged "EventName" tString "event_name";
           tagged "EventVersion" tString "event_version";
           tagged "EventID" tString "event_id" ]);
      (tTagsPtr, pointerTo "schematic.EventTags" tTags);
      (tPair, struct "Pair" [ tagged "A" tTags "a"; tagged "B" tTags "b" ]);
      (tEvent, struct "Event" [ tagged "Body" tPair "body" ]);
      (tRoot, struct "Root" [ tagged "Tags" tTagsPtr "tags_ptr" ]);
      (tSimple, struct "Simple" [ tagged "X" tString "x" ]);
      (tMain, struct "Main"
         [ tagged "First" tSimple "first"; tagged "Second" tSimple "second" ]);
      (tOuter, struct "Outer" [ tagged "Body" tMain "body" ]) ]).

(** The field [Tags *EventTags] of [Root], as [extractFieldInfo] returns
    it, and what [buildFieldProperty] makes of it. *)
Definition ptrField : reflect.StructField := tagged "Tags" tTagsPtr "tags_ptr".

Definition ptrInfo : fieldInfo.t :=
  fieldInfo.mk ptrField "tags_ptr" "*schematic.EventTags" "" "" "" false false.

Definition ptrResult : PropertyDefinition * schemaContext :=
  Eval vm_compute in
    valueOr (buildFieldProperty U (buildProperties U 3) ptrInfo 0 newContext)
            (zeroProperty, newContext).


(** The expected properties of the examples. *)
Definition xProperty : PropertyDefinition := mkProperty "string" "X" "" [] None ∅ "".

Definition simpleExpanded (name : string) : PropertyDefinition :=
  mkProperty "object" name "" ["x"] None {[ "x" := xProperty ]} "".

(** [Simple] not expanded: the kind name as type, no nested properties. *)
Definition simpleCut (name : string) : PropertyDefinition :=
  mkProperty "struct" name "" ["x"] None ∅ "".

Definition mainAtRoot : gmap string PropertyDefinition :=
  {[ "first" := simpleExpanded "First"; "second" := simpleExpanded "Second" ]}.

Definition mainBelowRoot : gmap string PropertyDefinition :=
  {[ "first" := simpleExpanded "First"; "second" := simpleCut "Second" ]}.

Definition outerProperties : gmap string PropertyDefinition :=
  {[ "body" := mkProperty "object" "Body" "" ["first"; "second"] None mainBelowRoot "" ]}.

Definition tagsKeys : list string := ["event_name"; "event_version"; "event_id"].

Definition tagsDefinition : PropertyDefinition :=
  mkProperty "object" "A" "" tagsKeys None
    {[ "event_name" := mkProperty "string" "EventName" "" [] None ∅ "";
       "event_version" := mkProperty "string" "EventVersion" "" [] None ∅ "";
       "event_id" := mkProperty "string" "EventID" "" [] None ∅ "" ]} "".

Definition tagsReference (name : string) : PropertyDefinition :=
  mkProperty "" name "" [] None ∅ "#/$defs/EventTags".

(** [EventTags] not expanded. *)
Definition tagsCut (name : string) : PropertyDefinition :=
  mkProperty "struct" name "" tagsKeys None ∅ "".

Definition pairSchema : Schema.t :=
  Schema.mk "url" "title" "object" ["a"; "b"]
    {[ "a" := tagsReference "A"; "b" := tagsReference "B" ]}
    {[ "EventTags" := tagsDefinition ]}.

Definition eventSchema : Schema.t :=
  Schema.mk "url" "title" "object" ["body"]
    {[ "body" := mkProperty "object" "Body" "" ["a"; "b"] None
                   {[ "a" := tagsReference "A"; "b" := tagsCut "B" ]} "" ]}
    {[ "EventTags" := tagsDefinition ]}.

End Nested.

Module Dash.
Import Examples.

Definition tDash : positive := 10.

(** [[
type Dash struct { F string `json:"-,"` }
]]
    For [encoding/json] this tag gives the field the key ["-"]. *)
Definition U : reflect.Universe :=
  list_to_map (predeclared ++ [ (tDash, struct "Dash" [ tagged "F" tString "-," ]) ]).

End Dash.

(** ** The rule of [GenerateRequired], field by field *)

(** A field contributes its key to the required list when its tag is not
    the skip marker, it is not a slice, and it is either a non-pointer
    without the omit-if-empty marker or a pointer whose tag names it
    [tags]. *)
Definition requiredField (U : reflect.Universe) (field : reflect.StructField) : Prop :=
  jsonTag field ≠ "-" ∧
  ¬ sliceShaped U field ∧
  ((pointerShaped U field ∧ tagName field = "tags") ∨
   (¬ pointerShaped U field ∧ ¬ omitIfEmpty field)).

#[global] Instance requiredField_dec U field : Decision (requiredField U field).
Proof.
  unfold requiredField, sliceShaped, pointerShaped, omitIfEmpty. apply _.
Defined.

(** The rule as claim C1 words it. *)
Definition requiredAsWorded (U : reflect.Universe) (field : reflect.StructField) : Prop :=
  (¬ skipped field ∧ ¬ sequenceShaped U field ∧ ¬ (¬ pointerShaped U field ∧ omitIfEmpty field))
  ∨ (pointerShaped U field ∧ externalKey field = "tags").

Definition requiredSetAsWorded (U : reflect.Universe) (t : positive) : Prop :=
  ∀ required, GenerateRequired U (Some t) None = Some required →
  ∀ field, field ∈ reflect.rFields (reflect.descr U t) →
    externalKey field ∈ required ↔ requiredAsWorded U field.

(** Claim C8 on the required set: the key of an interface-typed field is
    never in it. *)
Definition opaqueNeverRequired (U : reflect.Universe) (t : positive) : Prop :=
  ∀ required, GenerateRequired U (Some t) None = Some required →
  ∀ field, field ∈ reflect.rFields (reflect.descr U t) →
    reflect.Type_Kind U (reflect.Type' field) = reflect.Interface →
    externalKey field ∉ required.

(** An opaque field: of an interface type. *)
Definition opaque (U : reflect.Universe) (field : reflect.StructField) : Prop :=
  reflect.Type_Kind U (reflect.Type' field) = reflect.Interface.

Module Required.
Import Examples.

Definition tPointer : positive := 10.
Definition tOpaque : positive := 11.
Definition tMixed : positive := 12.
Definition tUntagged : positive := 13.
Definition tTriple : positive := 14.
Definition tFixed : positive := 15.

(** [[
type Pointer struct { P *string `json:"p"` }
type Fixed struct { Triple [3]int `json:"triple"` }
type Opaque struct { InterfaceField any `json:"interface_field"` }
type Untagged struct { Tags *string }
type Mixed struct {
        Name     string   `json:"name"`
        Nick     string   `json:"nick,omitempty"`
        Alias    *string  `json:"alias"`
        Tags     *string  `json:"tags"`
        Payload  any      `json:"payload"`
        Hidden   string   `json:"-"`
        Notes    []string `json:"notes"`
        PlainKey int
        Triple   [3]int   `json:"triple"`
}
]] *)
Definition pointerField : reflect.StructField := tagged "P" tStringPtr "p".
Definition opaqueField : reflect.StructField := tagged "InterfaceField" tAny "interface_field".
Definition payloadField : reflect.StructField := tagged "Payload" tAny "payload".
Definition tripleField : reflect.StructField := tagged "Triple" tTriple "triple".

Definition U : reflect.Universe :=
  list_to_map (predeclared ++
    [ (tPointer, struct "Pointer" [ pointerField ]);
      (tTriple, reflect.mkType reflect.Array "[3]int" "" (Some tInt) []);
      (tFixed, struct "Fixed" [ tripleField ]);
      (tOpaque, struct "Opaque" [ opaqueField ]);
      (tUntagged, struct "Untagged" [ untagged "Tags" tStringPtr ]);
      (tMixed, struct "Mixed"
         [ tagged "Name" tString "name";
           tagged "Nick" tString "nick,omitempty";
           tagged "Alias" tStringPtr "alias";
           tagged "Tags" tStringPtr "tags";
           payloadField;
           tagged "Hidden" tString "-";
           tagged "Notes" tStringSlice "notes";
           untagged "PlainKey" tInt;
           tripleField ]) ]).


End Required.

(** Claim C4 on one struct: the property of every sequence-shaped field
    (or pointer to a sequence) is an array with items. *)
Definition sequenceFieldsAreArrays (U : reflect.Universe) (t : positive) : Prop :=
  ∀ properties, GenerateProperties U (Some t) = Ok properties →
  ∀ field, field ∈ reflect.rFields (reflect.descr U t) →
    sequenceShaped U field ∨ pointerToSequence U field →
    ∀ p, properties !! externalKey field = Some p →
      Type' p = typeArray ∧ is_Some (Items p).

Module Sequences.
Import Examples.

Definition tBlob : positive := 10.
Definition tList : positive := 11.
Definition tStringSlicePtr : positive := 12.
Definition tTriple : positive := 13.
Definition tTriplePtr : positive := 14.
Definition tFixed : positive := 15.

(** [[
type Blob struct { Data []byte `json:"data"` }
type List struct {
        Notes    []string  `json:"notes"`
        NotesPtr *[]string `json:"notes_ptr"`
}
type Fixed struct {
        Triple    [3]int  `json:"triple"`
        TriplePtr *[3]int `json:"triple_ptr"`
}
]] *)
Definition blobField : reflect.StructField := tagged "Data" tBytes "data".
Definition notesField : reflect.StructField := tagged "Notes" tStringSlice "notes".
Definition notesPtrField : reflect.StructField := tagged "NotesPtr" tStringSlicePtr "notes_ptr".
Definition tripleField : reflect.StructField := tagged "Triple" tTriple "triple".
Definition triplePtrField : reflect.StructField := tagged "TriplePtr" tTriplePtr "triple_ptr".

Definition U : reflect.Universe :=
  list_to_map (predeclared ++
    [ (tBlob, struct "Blob" [ blobField ]);
      (tStringSlicePtr, pointerTo "[]string" tStringSlice);
      (tList, struct "List" [ notesField; notesPtrField ]);
      (tTriple, reflect.mkType reflect.Array "[3]int" "" (Some tInt) []);
      (tTriplePtr, pointerTo "[3]int" tTriple);
      (tFixed, struct "Fixed" [ tripleField; triplePtrField ]) ]).

Definition blobProperty : PropertyDefinition :=
  mkProperty "string" "Data" "byte" [] None ∅ "".

Definition blobProperties : gmap string PropertyDefinition := {[ "data" := blobProperty ]}.

Definition notesPtrInfo : fieldInfo.t :=
  Eval vm_compute in default (newFieldInfo notesPtrField "") (extractFieldInfo U notesPtrField).

Definition notesPtrProperty : PropertyDefinition :=
  mkProperty "array" "NotesPtr" "" []
    (Some (mkProperty "string" "NotesPtr" "" [] None ∅ "")) ∅ "".


(** [Triple] and [TriplePtr] as the walk emits them: arrays without
    items. *)
Definition tripleProperty : PropertyDefinition :=
  mkProperty "array" "Triple" "" [] None ∅ "".

Definition fixedProperties : gmap string PropertyDefinition :=
  {[ "triple" := tripleProperty;
     "triple_ptr" := mkProperty "array" "TriplePtr" "" [] None ∅ "" ]}.

Definition triplePtrInfo : fieldInfo.t :=
  Eval vm_compute in
    default (newFieldInfo triplePtrField "") (extractFieldInfo U triplePtrField).

End Sequences.

Module TestTypes.
Import Examples.

(** The types of the package's own tests ([SimpleStruct], [MainStruct],
    [EventTags], [EventToGenerate]). *)
Definition tInt32 : positive := 30.
Definition tInt64 : positive := 31.
Definition tFloat32 : positive := 32.
Definition tFloat64 : positive := 33.
Definition tIntSlice : positive := 34.
Definition tIntPtr : positive := 35.
Definition tIntPtrSlice : positive := 36.
Definition tIntSlicePtr : positive := 37.
Definition tAlias : positive := 38.
Definition tAliasPtr : positive := 39.
Definition tSimpleStruct : positive := 40.
Definition tSimplePtr : positive := 41.
Definition tSimpleSlice : positive := 42.
Definition tSimplePtrSlice : positive := 43.
Definition tSimpleSlicePtr : positive := 44.
Definition tMainStruct : positive := 45.
Definition tEventTags : positive := 46.
Definition tEventToGenerate : positive := 47.
Definition tRecursiveStruct : positive := 48.
Definition tRecursiveSlice : positive := 49.
Definition tMap : positive := 50.
Definition tTime : positive := 51.
Definition tRawMessage : positive := 52.
Definition tUint64 : positive := 53.
Definition tEdgeCaseStruct : positive := 54.

Definition U : reflect.Universe :=
  list_to_map (predeclared ++
    [ (tInt32, basic reflect.Int32); (tInt64, basic reflect.Int64);
      (tFloat32, basic reflect.Float32); (tFloat64, basic reflect.Float64);
      (tIntSlice, sliceOf "int" tInt); (tIntPtr, pointerTo "int" tInt);
      (tIntPtrSlice, sliceOf "*int" tIntPtr); (tIntSlicePtr, pointerTo "[]int" tIntSlice);
      (tAlias, reflect.mkType reflect.String "schematic.StringAliasType" "StringAliasType"
                 None []);
      (tAliasPtr, pointerTo "schematic.StringAliasType" tAlias);
      (tSimpleStruct, struct "SimpleStruct"
         [ tagged "FieldString" tString "field_string";
           tagged "FieldStringPtr" tStringPtr "field_string_ptr";
           tagged "FieldStringSlice" tStringSlice "field_string_slice";
           tagged "FieldInt" tInt "field_int";
           tagged "FieldInt32" tInt32 "field_int32";
           tagged "FieldInt64" tInt64 "field_int64";
           tagged "FieldFloat32" tFloat32 "field_float32";
           tagged "FieldFloat64" tFloat64 "field_float64";
           tagged "FieldOptional" tString "field_optional,omitempty" ]);
      (tSimplePtr, pointerTo "schematic.SimpleStruct" tSimpleStruct);
      (tSimpleSlice, sliceOf "schematic.SimpleStruct" tSimpleStruct);
      (tSimplePtrSlice, sliceOf "*schematic.SimpleStruct" tSimplePtr);
      (tSimpleSlicePtr, pointerTo "[]schematic.SimpleStruct" tSimpleSlice);
      (tMainStruct, struct "MainStruct"
         [ tagged "IntSlice" tIntSlice "int_slice";
           tagged "IntSlicePtr1" tIntPtrSlice "int_slice_ptr1";
           tagged "IntSlicePtr2" tIntSlicePtr "int_slice_ptr2";
           tagged "Alias" tAlias "alias";
           tagged "AliasPtr" tAliasPtr "alias_ptr";
           tagged "StructSimple" tSimpleStruct "struct_simple";
           tagged "StructPtr" tSimplePtr "struct_ptr";
           tagged "SliceStruct" tSimpleSlice "slice_struct";
           tagged "SliceStructPtr1" tSimplePtrSlice "slice_struct_ptr1";
           tagged "SliceStructPtr2" tSimpleSlicePtr "slice_struct_ptr2" ]);
      (tEventTags, struct "EventTags"
         [ tagged "EventName" tString "event_name";
           tagged "EventVersion" tString "event_version";
           tagged "EventID" tString "event_id" ]);
      (tEventToGenerate, struct "EventToGenerate"
         [ tagged "Tags" tEventTags "tags"; tagged "Body" tMainStruct "main_struct" ]);
      (tRecursiveStruct, struct "RecursiveStruct"
         [ tagged "Name" tString "name";
           tagged "Children" tRecursiveSlice "children,omitempty" ]);
      (tRecursiveSlice, sliceOf "schematic.RecursiveStruct" tRecursiveStruct);
      (tMap, reflect.mkType reflect.Map "map[string]interface {}" "" (Some tAny) []);
      (tTime, reflect.mkType reflect.Struct "time.Time" "Time" None []);
      (tRawMessage, reflect.mkType reflect.Slice "json.RawMessage" "RawMessage"
                      (Some tUint8) []);
      (tUint64, basic reflect.Uint64);
      (tEdgeCaseStruct, struct "EdgeCaseStruct"
         [ tagged "MapField" tMap "map_field";
           tagged "InterfaceField" tAny "interface_field";
           tagged "TimeField" tTime "time_field";
           tagged "ByteSlice" tBytes "byte_slice";
           tagged "JSONRaw" tRawMessage "json_raw";
           tagged "SkippedField" tString "-";
           tagged "UintField" tUint64 "uint_field" ]) ]).

Definition simpleRequired : list string :=
  ["field_string"; "field_int"; "field_int32"; "field_int64"; "field_float32";
   "field_float64"].

(** The results of the generator on the test types. *)
Definition edgeProperties : gmap string PropertyDefinition :=
  Eval vm_compute in valueOr (GenerateProperties U (Some tEdgeCaseStruct)) ∅.

Definition recursiveProperties : gmap string PropertyDefinition :=
  Eval vm_compute in valueOr (GenerateProperties U (Some tRecursiveStruct)) ∅.

Definition eventSchema : Schema.t :=
  Eval vm_compute in
    valueOr (GenerateSchema U (Some tEventToGenerate) "Test Event" "url")
            (Schema.mk "" "" "" [] ∅ ∅).

Definition mainDefinition : PropertyDefinition :=
  Eval vm_compute in default zeroProperty (Schema.Definitions eventSchema !! "MainStruct").

End TestTypes.

(** ** Progress of the walk *)

(** A computation returns from [ctx], and only adds to the visited set. *)
Definition ok_from {A} (m : M A) (ctx : schemaContext) : Prop :=
  ∃ a ctx', m ctx = Ok (a, ctx') ∧ visited ctx ⊆ visited ctx'.

(** A nested call returns from every context that has seen at least [V]. *)
Definition succeeds_from
    (rec : reflect.Type_ → nat → M (gmap string PropertyDefinition * list string))
    (nestedCounter : nat) (V : gset positive) : Prop :=
  ∀ t ctx, V ⊆ visited ctx → ok_from (rec (Some t) nestedCounter) ctx.

(** The levels that a walk can still enter: one per type of the table not
    yet visited, and two for the levels at which visited types are entered
    again. *)
Definition levelsLeft (U : reflect.Universe) (nestedCounter : nat) (ctx : schemaContext) : nat :=
  size (dom U ∖ visited ctx) + (2 - nestedCounter).

(** ** Keys on which the two traversals agree *)

(** The tag of the field is the plain skip marker, or the field has a key
    that is neither the marker nor empty. *)
Definition plainKey (field : reflect.StructField) : Prop :=
  jsonTag field ≠ "-" →
  tagName field ≠ "-" ∧ externalKey field ≠ "-" ∧ externalKey field ≠ "".

#[global] Instance plainKey_dec field : Decision (plainKey field).
Proof. unfold plainKey. apply _. Defined.

(** Every field of every struct of the table has a plain key. *)
Definition plainKeys (U : reflect.Universe) : Prop :=
  map_Forall (λ _ r, Forall plainKey (reflect.rFields r)) U.

(** * Properties *)

(** ** Strings *)

Lemma append_cons (c : ascii) (s t : string) : String c s +:+ t = String c (s +:+ t).
Proof. reflexivity. Qed.

Lemma append_nil_l (s : string) : "" +:+ s = s.
Proof. reflexivity. Qed.

Lemma append_nil_r (s : string) : s +:+ "" = s.
Proof. induction s as [|c s IH]; [done|]. by rewrite append_cons, IH. Qed.

Lemma append_assoc (s1 s2 s3 : string) : (s1 +:+ s2) +:+ s3 = s1 +:+ (s2 +:+ s3).
Proof. induction s1 as [|c s1 IH]; [done|]. by rewrite !append_cons, IH. Qed.

Lemma Split_nonempty (s : string) (sep : ascii) : strings.Split s sep ≠ [].
Proof.
  destruct s as [|c s]; simpl; [done|].
  destruct (decide (c = sep)); [done|].
  by destruct (strings.Split s sep).
Qed.

Lemma Split_hd_tl (s : string) (sep : ascii) :
  strings.Split s sep = hd "" (strings.Split s sep) :: tl (strings.Split s sep).
Proof. pose proof (Split_nonempty s sep). by destruct (strings.Split s sep). Qed.

(** The tag as both traversals cut it. *)
Lemma Split_jsonTag (field : reflect.StructField) :
  strings.Split (jsonTag field) ","%char = tagName field :: tl (strings.Split (jsonTag field) ","%char).
Proof. apply Split_hd_tl. Qed.

(** ** Case conversion *)

(** Every iteration of [range] moves on by one byte at least. *)
Lemma DecodeRuneInString_size (c : ascii) (s : string) :
  (0 < (utf8.DecodeRuneInString (String c s)).2)%nat.
Proof. unfold utf8.DecodeRuneInString. repeat case_match; simpl; lia. Qed.

Lemma range_loop_index (bytes : nat) :
  ∀ i s, Forall (λ p, (i ≤ p.1)%nat) (range_loop bytes i s).
Proof.
  induction bytes as [|bytes IH]; intros i s; [done|].
  destruct s as [|c s]; [done|]. cbn [range_loop].
  pose proof (DecodeRuneInString_size c s) as Hsize.
  destruct (utf8.DecodeRuneInString (String c s)) as [r size]. simpl in Hsize.
  constructor; [done|].
  eapply Forall_impl; [apply IH|]. intros p Hp. simpl in *. lia.
Qed.

Lemma sliceFrom_length (s : string) :
  ∀ n, String.length (sliceFrom s n) = (String.length s - n)%nat.
Proof.
  induction s as [|c s IH]; intros [|n]; simpl; done.
Qed.

(** The bound on the iterations is never reached before the end of the
    string: a larger one gives the same iterations. *)
Lemma range_loop_bound (bytes : nat) :
  ∀ bytes' i s,
    (String.length s ≤ bytes)%nat → (String.length s ≤ bytes')%nat →
    range_loop bytes i s = range_loop bytes' i s.
Proof.
  induction bytes as [|bytes IH]; intros bytes' i s Hn Hm.
  - destruct s; simpl in Hn; [|lia]. by destruct bytes'.
  - destruct s as [|c s]; [by destruct bytes'|].
    destruct bytes' as [|bytes']; simpl in Hm; [lia|]. cbn [range_loop].
    pose proof (DecodeRuneInString_size c s) as Hsize.
    destruct (utf8.DecodeRuneInString (String c s)) as [r size]. simpl in Hsize.
    f_equal. apply IH; rewrite sliceFrom_length; simpl in *; lia.
Qed.

(** The first iteration is at index zero, and no other one. *)
Lemma rangeString_index (s : string) :
  match rangeString s with
  | [] => True
  | (i, _) :: iterations => i = 0%nat ∧ Forall (λ p, (0 < p.1)%nat) iterations
  end.
Proof.
  unfold rangeString. destruct s as [|c s]; [done|]. cbn [String.length range_loop].
  pose proof (DecodeRuneInString_size c s) as Hsize.
  destruct (utf8.DecodeRuneInString (String c s)) as [r size]. simpl in Hsize.
  split; [done|].
  eapply Forall_impl; [apply range_loop_index|]. intros p Hp. simpl in *. lia.
Qed.

(** After the first rune the loop appends one converted letter per rune. *)
Lemma toSnakeCase_loop_tail (iterations : list (nat * N)) :
  ∀ result, Forall (λ p, (0 < p.1)%nat) iterations →
    toSnakeCase_loop iterations result = result +:+ snakeTail iterations.*2.
Proof.
  induction iterations as [|[i r] iterations IH]; intros result Hall; simpl.
  - by rewrite append_nil_r.
  - apply Forall_cons in Hall as [Hi Hall]. simpl in Hi.
    rewrite IH by done. unfold snakeLetter.
    destruct (unicode.IsUpper r).
    + rewrite decide_True by done. by rewrite !append_assoc.
    + by rewrite !append_assoc.
Qed.

Lemma toSnakeCase_spec (s : string) : toSnakeCase s = snakeCaseSpec s.
Proof.
  unfold toSnakeCase, snakeCaseSpec, letters.
  pose proof (rangeString_index s) as Hindex.
  destruct (rangeString s) as [|[i r] iterations]; [done|].
  destruct Hindex as [-> Hall]. simpl.
  rewrite toSnakeCase_loop_tail by done. unfold snakeFirst.
  destruct (unicode.IsUpper r); by rewrite ?append_nil_l.
Qed.

(** ** Field analysis *)

Lemma length_zero_empty (s : string) : String.length s = 0 ↔ s = "".
Proof. destruct s; simpl; split; intros; congruence. Qed.

(** Both traversals resolve the key of a field in the same way. *)
Lemma externalKey_length field :
  (if decide (String.length (tagName field) = 0)
   then toSnakeCase (reflect.Name field) else tagName field) = externalKey field.
Proof.
  unfold externalKey.
  destruct (decide (String.length (tagName field) = 0)) as [Hl|Hl];
    destruct (decide (tagName field = "")) as [He|He]; try done.
  - by apply length_zero_empty in Hl.
  - by rewrite He in Hl.
Qed.

(** The classification of a field only writes the type columns of the
    record. *)
Lemma handleSliceType_keeps U info fieldType info' :
  handleSliceType U info fieldType = Some info' →
  fieldInfo.Field info' = fieldInfo.Field info ∧
  fieldInfo.TagName info' = fieldInfo.TagName info ∧
  fieldInfo.TypeName info' = fieldInfo.TypeName info ∧
  fieldInfo.Format info' = fieldInfo.Format info ∧
  fieldInfo.IsArray info' = fieldInfo.IsArray info.
Proof.
  unfold handleSliceType. intros H.
  destruct (reflect.Type_Elem U fieldType) as [elemType|]; simpl in H; [|done].
  destruct (convertToEventName U _ None) as [[[a b] c]|]; simpl in H; [|done].
  simplify_eq. by case_decide.
Qed.

Lemma handlePointerType_keeps U info fieldType info' :
  handlePointerType U info fieldType = Some info' →
  fieldInfo.Field info' = fieldInfo.Field info ∧
  fieldInfo.TagName info' = fieldInfo.TagName info.
Proof.
  unfold handlePointerType. intros H.
  destruct (reflect.Type_Elem U fieldType) as [elemType|]; simpl in H; [|done].
  case_decide.
  - destruct (reflect.Type_Elem U elemType) as [elemElem|]; simpl in H; [|done].
    destruct (convertToEventName U _ _) as [[[a b] c]|]; simpl in H; [|done].
    by simplify_eq.
  - destruct (convertToEventName U _ _) as [[[a b] c]|]; simpl in H; [|done].
    by simplify_eq.
Qed.

Lemma analyzeFieldType_keeps U info info' :
  analyzeFieldType U info = Some info' →
  fieldInfo.Field info' = fieldInfo.Field info ∧
  fieldInfo.TagName info' = fieldInfo.TagName info.
Proof.
  unfold analyzeFieldType. intros H.
  repeat case_decide; simplify_eq; [done..|].
  destruct (reflect.Type_Kind U _);
    try (destruct (convertToEventName U _ _) as [[[a b] c]|]; simpl in H; by simplify_eq).
  - by apply handlePointerType_keeps in H.
  - apply handleSliceType_keeps in H. by destruct H as (-> & -> & _).
Qed.

(** What [extractFieldInfo] records about the tag: the skip marker, or the
    external key. *)
Lemma extractFieldInfo_tag U field info :
  extractFieldInfo U field = Some info →
  fieldInfo.Field info = field ∧
  fieldInfo.TagName info = if decide (tagName field = "-") then "-" else externalKey field.
Proof.
  unfold extractFieldInfo, externalKey. cbv zeta.
  change (reflect.Get (reflect.Tag field) "json") with (jsonTag field).
  rewrite Split_jsonTag. intros H.
  destruct (decide (tagName field = "-")) as [Hskip|Hskip]; [by simplify_eq|].
  apply analyzeFieldType_keeps in H as [-> ->]. simpl. split; [done|].
  destruct (decide (String.length (tagName field) = 0)) as [Hlen|Hlen];
    destruct (decide (tagName field = "")) as [He|He]; try done.
  - by apply length_zero_empty in Hlen.
  - by rewrite He in Hlen.
Qed.

(** ** External keys *)

(** C7.  A field without an explicit tag name gets the case-converted
    identifier as its external key: the first letter lower-cased, every later
    uppercase letter replaced by an underscore and its lowercase form, one
    letter at a time (runs of capitals are not collapsed).  The letters are
    the runes of the identifier, and upper and lower case are those of
    Unicode.  In particular [PascalCaseField], [XMLHttpRequest] and
    [IOHandler] become [pascal_case_field], [x_m_l_http_request] and
    [i_o_handler]. *)
Theorem external_key_is_snake_case (U : reflect.Universe)
    (field : reflect.StructField) (info : fieldInfo.t) :
  tagName field = "" →
  extractFieldInfo U field = Some info →
  fieldInfo.TagName info = toSnakeCase (reflect.Name field) ∧
  toSnakeCase (reflect.Name field) = snakeCaseSpec (reflect.Name field) ∧
  toSnakeCase "PascalCaseField" = "pascal_case_field" ∧
  toSnakeCase "XMLHttpRequest" = "x_m_l_http_request" ∧
  toSnakeCase "IOHandler" = "i_o_handler".
Proof.
  intros Hname Hinfo.
  apply extractFieldInfo_tag in Hinfo as [_ ->].
  unfold externalKey. rewrite Hname. simpl.
  split; [done|]. split; [apply toSnakeCase_spec|].
  by vm_compute.
Qed.

Lemma external_key_is_snake_case_witness :
  fieldInfo.TagName Plain.snakeInfo = toSnakeCase (reflect.Name Plain.snakeField) ∧
  toSnakeCase (reflect.Name Plain.snakeField) = snakeCaseSpec (reflect.Name Plain.snakeField) ∧
  toSnakeCase "PascalCaseField" = "pascal_case_field" ∧
  toSnakeCase "XMLHttpRequest" = "x_m_l_http_request" ∧
  toSnakeCase "IOHandler" = "i_o_handler".
Proof.
  apply (external_key_is_snake_case Plain.U Plain.snakeField Plain.snakeInfo).
  - reflexivity.
  - vm_compute. reflexivity.
Defined.

(** Capital letters outside ASCII are converted as well, rune by rune. *)
Lemma toSnakeCase_beyond_ascii :
  letters "Ärger" = [0xC4; 0x72; 0x67; 0x65; 0x72]%N ∧
  toSnakeCase "Ärger" = "ärger" ∧
  toSnakeCase "NomÉcole" = "nom_école" ∧
  toSnakeCase "ЯндексКарта" = "яндекс_карта".
Proof. repeat split; vm_compute; reflexivity. Qed.

(** ** Byte blobs *)

(** C6.  A field of type [[]byte] that is not skipped is emitted as the
    property of type ["string"] with format ["byte"] (and, as every property,
    the field's name as description), whatever its kind: the name is compared
    before the kind is looked at, so the property is not array-typed and has
    no items. *)
Theorem byte_blob_is_string (U : reflect.Universe)
    (rec : reflect.Type_ → nat → M (gmap string PropertyDefinition * list string))
    (field : reflect.StructField) (nestedCounter : nat) (ctx : schemaContext) :
  byteBlob U field →
  ¬ skipped field →
  ∃ info p,
    extractFieldInfo U field = Some info ∧
    fieldInfo.IsArray info = false ∧
    buildFieldProperty U rec info nestedCounter ctx = Ok (p, ctx) ∧
    p = mkProperty "string" (reflect.Name field) "byte" [] None ∅ "" ∧
    Type' p ≠ typeArray ∧ Items p = None.
Proof.
  intros Hblob Hskip. unfold skipped in Hskip.
  unfold extractFieldInfo. cbv zeta.
  change (reflect.Get (reflect.Tag field) "json") with (jsonTag field).
  rewrite Split_jsonTag.
  destruct (decide (tagName field = "-")) as [|_]; [done|].
  unfold analyzeFieldType. cbv zeta. simpl fieldInfo.TypeName. simpl fieldInfo.Field.
  destruct (decide (reflect.Type_String U (reflect.Type' field) = "interface{}")) as [He|_].
  { destruct Hblob as [Hb|Hb]; rewrite Hb in He; discriminate He. }
  destruct (decide (reflect.Type_String U (reflect.Type' field) = "[]byte"
                    ∨ reflect.Type_String U (reflect.Type' field) = "[]uint8")) as [_|Hn];
    [|done].
  eexists _, _. split; [reflexivity|]. split; [reflexivity|].
  split; [|split; [reflexivity|split; [by vm_compute|reflexivity]]].
  unfold buildFieldProperty, bind, ret, shouldUseDefinition, buildObjectProperty. simpl.
  rewrite map_size_empty. simpl.
  destruct (decide (0 < 0 ∧ "string" ≠ typeArray)) as [[? _]|_]; [lia|done].
Qed.

Lemma byte_blob_is_string_witness :
  ∃ info p,
    extractFieldInfo Plain.U Plain.blobField = Some info ∧
    fieldInfo.IsArray info = false ∧
    buildFieldProperty Plain.U (buildProperties Plain.U 0) info 0 newContext
      = Ok (p, newContext) ∧
    p = mkProperty "string" "ByteSlice" "byte" [] None ∅ "" ∧
    Type' p ≠ typeArray ∧ Items p = None.
Proof.
  apply (byte_blob_is_string Plain.U (buildProperties Plain.U 0) Plain.blobField 0 newContext).
  - right. reflexivity.
  - unfold skipped. vm_compute. discriminate.
Defined.

(** ** Hoisting into the definitions table *)

(** [buildFieldProperty] step by step: the nested walk, then one of the
    three constructors. *)
Lemma buildFieldProperty_inv U rec info nestedCounter ctx p ctx' :
  buildFieldProperty U rec info nestedCounter ctx = Ok (p, ctx') →
  ∃ nested required ctx1,
    (if fieldInfo.SkipNested info then nested = ∅ ∧ required = [] ∧ ctx1 = ctx
     else rec (Some (reflect.Type' (fieldInfo.Field info))) (S nestedCounter) ctx
          = Ok ((nested, required), ctx1)) ∧
    (if shouldUseDefinition U (reflect.Type' (fieldInfo.Field info)) nested
     then createDefinitionReference U info nested required ctx1 = Ok (p, ctx')
     else ctx' = ctx1 ∧
          p = if fieldInfo.IsArray info then buildArrayProperty info nested required
              else buildObjectProperty info nested required).
Proof.
  unfold buildFieldProperty, bind, ret. intros H.
  destruct (fieldInfo.SkipNested info); simpl in H.
  - exists ∅, [], ctx. split; [done|].
    destruct (shouldUseDefinition U _ ∅); [done|].
    destruct (fieldInfo.IsArray info); by simplify_eq.
  - destruct (rec _ _ ctx) as [[[nested required] ctx1]| |]; [|done..].
    exists nested, required, ctx1. split; [done|].
    destruct (shouldUseDefinition U _ nested); [done|].
    destruct (fieldInfo.IsArray info); by simplify_eq.
Qed.

(** C10.  A field whose type is not itself of kind struct, in particular a
    pointer and also a pointer to a struct, is never replaced by a reference
    and adds nothing to the definitions table, however many nested properties
    it has: its property is the array or object property built from the
    nested walk, and the context is the one the nested walk left. *)
Theorem pointer_field_not_hoisted (U : reflect.Universe)
    (rec : reflect.Type_ → nat → M (gmap string PropertyDefinition * list string))
    (info : fieldInfo.t) (nestedCounter : nat) (ctx ctx' : schemaContext)
    (p : PropertyDefinition) :
  reflect.Type_Kind U (reflect.Type' (fieldInfo.Field info)) ≠ reflect.Struct →
  buildFieldProperty U rec info nestedCounter ctx = Ok (p, ctx') →
  Ref p = "" ∧
  ∃ nested required,
    (if fieldInfo.SkipNested info then nested = ∅ ∧ required = [] ∧ ctx' = ctx
     else rec (Some (reflect.Type' (fieldInfo.Field info))) (S nestedCounter) ctx
          = Ok ((nested, required), ctx')) ∧
    p = if fieldInfo.IsArray info then buildArrayProperty info nested required
        else buildObjectProperty info nested required.
Proof.
  intros Hkind H.
  apply buildFieldProperty_inv in H as (nested & required & ctx1 & Hnested & H).
  unfold shouldUseDefinition in H.
  rewrite (bool_decide_eq_false_2 _ Hkind), andb_false_r in H.
  destruct H as [-> ->]. split.
  - by destruct (fieldInfo.IsArray info).
  - by exists nested, required.
Qed.

Lemma pointer_field_not_hoisted_witness :
  extractFieldInfo Nested.U Nested.ptrField = Some Nested.ptrInfo ∧
  size (Properties Nested.ptrResult.1) = 3 ∧
  Ref Nested.ptrResult.1 = "" ∧
  ∃ nested required,
    (if fieldInfo.SkipNested Nested.ptrInfo
     then nested = ∅ ∧ required = [] ∧ Nested.ptrResult.2 = newContext
     else buildProperties Nested.U 3 (Some (reflect.Type' (fieldInfo.Field Nested.ptrInfo))) 1
            newContext = Ok ((nested, required), Nested.ptrResult.2)) ∧
    Nested.ptrResult.1 =
      if fieldInfo.IsArray Nested.ptrInfo
      then buildArrayProperty Nested.ptrInfo nested required
      else buildObjectProperty Nested.ptrInfo nested required.
Proof.
  split; [by vm_compute|]. split; [by vm_compute|].
  apply (pointer_field_not_hoisted Nested.U (buildProperties Nested.U 3) Nested.ptrInfo 0
           newContext Nested.ptrResult.2 Nested.ptrResult.1).
  - vm_compute. discriminate.
  - vm_compute. reflexivity.
Defined.

(** ** Required keys *)

Lemma requiredStep_spec U require field :
  requiredStep U require field =
    Some (if decide (requiredField U field) then require ++ [externalKey field] else require).
Proof.
  unfold requiredStep. cbv zeta.
  change (reflect.Get (reflect.Tag field) "json") with (jsonTag field).
  rewrite Split_jsonTag.
  change (strings.Join (tl (strings.Split (jsonTag field) ","%char)) ",")
    with (tagOptions field).
  rewrite externalKey_length.
  destruct (decide (jsonTag field = "-")) as [Htag|Htag].
  { rewrite decide_False; [done|]. by intros [? _]. }
  destruct (decide (reflect.Type_Kind U (reflect.Type' field) = reflect.Slice)) as [Hs|Hs].
  { rewrite decide_False; [done|]. by intros (_ & ? & _). }
  destruct (decide (reflect.Type_Kind U (reflect.Type' field) ≠ reflect.Ptr)) as [Hp|Hp].
  - destruct (strings.Contains (tagOptions field) "omitempty") eqn:Ho; simpl.
    + rewrite decide_False; [done|].
      intros (_ & _ & [[? _]|[_ Hn]]); [done|]. by apply Hn.
    + rewrite decide_True; [done|].
      split; [done|]. split; [done|]. right. split; [done|].
      unfold omitIfEmpty. by rewrite Ho.
  - apply dec_stable in Hp.
    destruct (decide (tagName field = "tags")) as [Ht|Ht].
    + rewrite decide_True.
      * unfold externalKey. rewrite Ht. by rewrite decide_False.
      * split; [done|]. split; [done|]. by left.
    + rewrite decide_False; [done|].
      intros (_ & _ & [[_ ?]|[? _]]); done.
Qed.

Lemma requiredLoop_spec U fields require :
  requiredLoop U fields require =
    Some (require ++ (externalKey <$> filter (requiredField U) fields)).
Proof.
  revert require. induction fields as [|field fields IH]; intros require; simpl.
  - by rewrite app_nil_r.
  - rewrite requiredStep_spec. simpl. rewrite IH, filter_cons.
    destruct (decide (requiredField U field)); [|done].
    by rewrite fmap_cons, <-app_assoc.
Qed.

(** On a struct, [GenerateRequired] lists the keys of the fields that count,
    in declaration order. *)
Lemma GenerateRequired_struct U t :
  reflect.Type_Kind U t = reflect.Struct →
  GenerateRequired U None (Some t) =
    Some (externalKey <$> filter (requiredField U) (reflect.rFields (reflect.descr U t))) ∧
  GenerateRequired U (Some t) None =
    Some (externalKey <$> filter (requiredField U) (reflect.rFields (reflect.descr U t))).
Proof.
  intros Hk. unfold GenerateRequired, reflect.Type_Fields. simpl.
  rewrite Hk. rewrite decide_False by (by intros ?).
  rewrite decide_True by done. simpl. by rewrite requiredLoop_spec.
Qed.

(** [GenerateRequired] does not panic on a well-formed table. *)
Lemma Type_Elem_wf U t :
  reflect.wf_universe U →
  reflect.has_elem (reflect.Type_Kind U t) = true →
  ∃ e, reflect.Type_Elem U t = Some e.
Proof.
  unfold reflect.Type_Kind, reflect.Type_Elem, reflect.descr. intros Hwf Hk.
  destruct (U !! t) as [r|] eqn:Hr; simpl in *; [|done].
  apply Hwf in Hr. by apply Hr in Hk as [e ->]; exists e.
Qed.

Lemma GenerateRequired_total U object nestedObject :
  reflect.wf_universe U →
  ∃ required, GenerateRequired U object nestedObject = Some required.
Proof.
  intros Hwf. unfold GenerateRequired. cbv zeta.
  destruct (if decide (nestedObject ≠ None) then nestedObject else object) as [t|];
    [|by eexists].
  assert (∀ t', ∃ required,
    (if decide (reflect.Type_Kind U t' ≠ reflect.Struct) then Some []
     else reflect.Type_Fields U t' ≫= λ fields, requiredLoop U fields []) = Some required)
    as Hstruct.
  { intros t'. case_decide as Hk; [by eexists|].
    unfold reflect.Type_Fields. rewrite decide_True by done. simpl.
    rewrite requiredLoop_spec. by eexists. }
  pose proof (Hstruct t) as Ht.
  pose proof (Type_Elem_wf U t Hwf) as He.
  destruct (reflect.Type_Kind U t) eqn:Hk; try (by eexists); try exact Ht.
  destruct He as [e ->]; [done|]. simpl. apply Hstruct.
Qed.

Lemma jsonTag_dash_skipped field : jsonTag field = "-" → skipped field.
Proof. unfold skipped, tagName. by intros ->. Qed.


(** Membership in the required list of a struct. *)
Lemma required_keys U t required :
  reflect.Type_Kind U t = reflect.Struct →
  GenerateRequired U (Some t) None = Some required →
  ∀ key, key ∈ required ↔
    ∃ field, field ∈ reflect.rFields (reflect.descr U t) ∧
             requiredField U field ∧ externalKey field = key.
Proof.
  intros Hk Hreq key. apply GenerateRequired_struct in Hk as [_ Hk].
  rewrite Hk in Hreq. simplify_eq. rewrite list_elem_of_fmap. split.
  - intros (field & -> & Hin). apply list_elem_of_filter in Hin as [? ?]. by exists field.
  - intros (field & Hin & Hr & <-). exists field. split; [done|].
    by apply list_elem_of_filter.
Qed.




(** C1 as worded fails for arrays too: [Triple [3]int `json:"triple"`] is
    sequence-shaped, and its key is required. *)
Lemma array_field_is_required :
  sequenceShaped Required.U Required.tripleField ∧
  GenerateRequired Required.U (Some Required.tFixed) None = Some ["triple"] ∧
  ¬ requiredSetAsWorded Required.U Required.tFixed.
Proof.
  assert (sequenceShaped Required.U Required.tripleField) as Hseq by (by right).
  split; [done|]. split; [reflexivity|].
  intros H.
  specialize (H ["triple"] eq_refl Required.tripleField).
  destruct H as [H _]; [by left|].
  destruct H as [(_ & Hn & _)|[Hp _]]; [by left|done|].
  vm_compute in Hp. discriminate.
Qed.

(** The exception for [tags] goes by the tag: a pointer field [Tags] without
    a tag has the external key [tags] in the property mapping and is not
    required. *)
Lemma untagged_tags_pointer_not_required :
  externalKey (Examples.untagged "Tags" Examples.tStringPtr) = "tags" ∧
  GenerateRequired Required.U (Some Required.tUntagged) None = Some [] ∧
  GenerateProperties Required.U (Some Required.tUntagged)
    = Ok {[ "tags" := mkProperty "string" "Tags" "" [] None ∅ "" ]}.
Proof. split; [|split]; vm_compute; reflexivity. Qed.

(** ** Opaque fields *)

Lemma classifyName_None_not_interface s : classifyName s = None → s ≠ "interface{}".
Proof. intros H ->. vm_compute in H. discriminate. Qed.

(** C8, amended.  An interface-typed field that is not skipped, and whose
    type the classifier does not settle by its printed name, is emitted with
    empty type and no format (so no [type] key is serialised), and
    [GenerateRequired] treats it as every non-pointer field: without the
    omit-if-empty marker its key is in the required set. *)
Theorem opaque_field_rule (U : reflect.Universe)
    (rec : reflect.Type_ → nat → M (gmap string PropertyDefinition * list string))
    (t : positive) (field : reflect.StructField) (nestedCounter : nat)
    (ctx : schemaContext) :
  reflect.Type_Kind U t = reflect.Struct →
  field ∈ reflect.rFields (reflect.descr U t) →
  opaque U field →
  ¬ classifiedByName U field →
  ¬ skipped field →
  (∃ info,
     extractFieldInfo U field = Some info ∧
     buildFieldProperty U rec info nestedCounter ctx
       = Ok (mkProperty "" (reflect.Name field) "" [] None ∅ "", ctx)) ∧
  (∃ required,
     GenerateRequired U (Some t) None = Some required ∧
     (¬ omitIfEmpty field → externalKey field ∈ required)).
Proof.
  intros Hk Hin Hkind Hby Hskip.
  assert (classifyName (reflect.Type_String U (reflect.Type' field)) = None) as Hname.
  { destruct (classifyName _) eqn:Hc; [|done]. exfalso. apply Hby. left. congruence. }
  assert (¬ byteBlob U field) as Hblob by (intros ?; apply Hby; by right).
  unfold opaque in Hkind. split.
  - unfold extractFieldInfo. cbv zeta.
    change (reflect.Get (reflect.Tag field) "json") with (jsonTag field).
    rewrite Split_jsonTag. rewrite decide_False by done.
    unfold analyzeFieldType. cbv zeta. simpl fieldInfo.TypeName. simpl fieldInfo.Field.
    rewrite decide_False by (by apply classifyName_None_not_interface).
    rewrite decide_False by exact Hblob.
    rewrite externalKey_length.
    rewrite Hkind. unfold convertToEventName. cbv zeta. rewrite Hname, Hkind.
    rewrite (decide_True (P := reflect.Interface = reflect.Interface)) by reflexivity.
    simpl.
    eexists. split; [reflexivity|].
    unfold buildFieldProperty, bind, ret, shouldUseDefinition, buildObjectProperty. simpl.
    rewrite map_size_empty. simpl.
    destruct (decide (0 < 0 ∧ "" ≠ typeArray)) as [[? _]|_]; [lia|done].
  - destruct (GenerateRequired_struct U t Hk) as [_ Hreq].
    eexists. split; [exact Hreq|]. intros Homit.
    rewrite (required_keys U t _ Hk Hreq). exists field. split; [done|]. split; [|done].
    unfold requiredField, sliceShaped, pointerShaped. rewrite Hkind.
    split; [|split; [done|right; split; done]].
    intros Htag. by apply Hskip, jsonTag_dash_skipped.
Qed.

Lemma opaque_field_rule_witness :
  (∃ info,
     extractFieldInfo Required.U Required.payloadField = Some info ∧
     buildFieldProperty Required.U (buildProperties Required.U 0) info 0 newContext
       = Ok (mkProperty "" "Payload" "" [] None ∅ "", newContext)) ∧
  (∃ required,
     GenerateRequired Required.U (Some Required.tMixed) None = Some required ∧
     (¬ omitIfEmpty Required.payloadField → externalKey Required.payloadField ∈ required)).
Proof.
  apply (opaque_field_rule Required.U (buildProperties Required.U 0) Required.tMixed
           Required.payloadField 0 newContext).
  - reflexivity.
  - apply (bool_decide_unpack _). vm_compute. exact I.
  - reflexivity.
  - intros [H|[H|H]]; [by apply H|vm_compute in H; discriminate..].
  - unfold skipped. vm_compute. discriminate.
Defined.

(** C8 as worded fails: [InterfaceField any `json:"interface_field"`] is in
    the required set. *)
Lemma opaque_field_is_required : ¬ opaqueNeverRequired Required.U Required.tOpaque.
Proof.
  intros H.
  apply (H ["interface_field"] eq_refl Required.opaqueField).
  - by left.
  - reflexivity.
  - by left.
Qed.

(** ** Sequences *)

Lemma handlePointerType_array U info fieldType info' e :
  handlePointerType U info fieldType = Some info' →
  reflect.Type_Elem U fieldType = Some e →
  reflect.Type_Kind U e = reflect.Slice →
  fieldInfo.IsArray info' = true.
Proof.
  unfold handlePointerType. intros H He Hk. rewrite He in H. simpl in H.
  rewrite decide_True in H by done.
  destruct (reflect.Type_Elem U e) as [elemElem|]; simpl in H; [|done].
  destruct (convertToEventName U _ _) as [[[a b] c]|]; simpl in H; [|done].
  by simplify_eq.
Qed.

(** A slice, or a pointer to one, is classified as an array unless its
    type name is one of those compared first. *)
Lemma analyzeFieldType_array U info info' :
  analyzeFieldType U info = Some info' →
  reflect.Type_String U (reflect.Type' (fieldInfo.Field info)) ≠ "interface{}" →
  ¬ byteBlob U (fieldInfo.Field info) →
  sliceShaped U (fieldInfo.Field info) ∨ pointerToSlice U (fieldInfo.Field info) →
  fieldInfo.IsArray info' = true.
Proof.
  unfold analyzeFieldType, byteBlob, sliceShaped, pointerToSlice, pointerShaped.
  cbv zeta. simpl fieldInfo.TypeName. simpl fieldInfo.Field.
  intros H Hi Hb Hshape.
  rewrite decide_False in H by done. rewrite decide_False in H by done.
  destruct Hshape as [Hk|(Hk & e & He & Hke)]; rewrite Hk in H.
  - apply handleSliceType_keeps in H. by destruct H as (_ & _ & _ & _ & ->).
  - by eapply handlePointerType_array.
Qed.

(** A fixed-size array, or a pointer to one, is not: it goes by the name of
    its kind, which is the name of the array type of JSON Schema. *)
Lemma analyzeFieldType_fixed U info info' :
  analyzeFieldType U info = Some info' →
  fieldInfo.IsArray info = false →
  ¬ classifiedByName U (fieldInfo.Field info) →
  arrayShaped U (fieldInfo.Field info) ∨ pointerToArray U (fieldInfo.Field info) →
  fieldInfo.IsArray info' = false ∧ fieldInfo.TypeName info' = typeArray.
Proof.
  unfold analyzeFieldType, classifiedByName, arrayShaped, pointerToArray, pointerShaped.
  cbv zeta. simpl fieldInfo.TypeName. simpl fieldInfo.Field.
  intros H Harr Hby Hshape.
  assert (classifyName (reflect.Type_String U (reflect.Type' (fieldInfo.Field info))) = None)
    as Hname.
  { destruct (classifyName _) eqn:Hc; [|done]. exfalso. apply Hby. left. congruence. }
  rewrite decide_False in H by (by apply classifyName_None_not_interface).
  rewrite decide_False in H by (intros ?; apply Hby; by right).
  assert (convertToEventName_nil "array" = (typeArray, "", false)) as Hnil
    by (vm_compute; reflexivity).
  destruct Hshape as [Hk|(Hk & e & He & Hke)]; rewrite Hk in H.
  - unfold convertToEventName in H. rewrite Hname, Hk in H.
    rewrite decide_False in H by discriminate.
    cbn [reflect.Kind_String] in H. rewrite decide_True in H by done.
    rewrite Hnil in H. cbn [mbind option_bind] in H. by simplify_eq.
  - unfold handlePointerType in H. rewrite He in H. cbn [mbind option_bind] in H.
    rewrite decide_False in H by (rewrite Hke; discriminate).
    unfold convertToEventName in H. cbn [fieldInfo.TypeName withTypeName] in H.
    rewrite Hname, Hk, He in H.
    rewrite decide_False in H by discriminate.
    cbn [reflect.Kind_String mbind option_bind] in H.
    rewrite decide_False in H by (intros Hne; by apply Hne).
    rewrite decide_True in H by (rewrite Hke; discriminate).
    rewrite Hke in H. cbn [reflect.Kind_String] in H.
    rewrite Hnil in H. cbn [mbind option_bind] in H. by simplify_eq.
Qed.

Lemma createDefinitionReference_spec U info nested required ctx :
  let name := reflect.Type_Name U (reflect.Type' (fieldInfo.Field info)) in
  let defName := if decide (name = "") then "AnonymousStruct" +:+ strconv.Itoa (counter ctx)
                 else name in
  createDefinitionReference U info nested required ctx =
    Ok (mkProperty "" (reflect.Name (fieldInfo.Field info)) "" [] None ∅
          ("#/$defs/" +:+ defName),
        mkContext (visited ctx)
          (match definitions ctx !! defName with
           | Some _ => definitions ctx
           | None => <[defName := mkProperty "object" (reflect.Name (fieldInfo.Field info)) ""
                                     required None nested ""]> (definitions ctx)
           end)
          (if decide (name = "") then S (counter ctx) else counter ctx)).
Proof.
  unfold createDefinitionReference. cbv zeta.
  destruct (decide (reflect.Type_Name U _ = "")); simpl.
  - destruct (definitions ctx !! _); simpl; [done|].
    by destruct (decide (0 < size nested)).
  - destruct (definitions ctx !! _); simpl; [by destruct ctx|].
    by destruct (decide (0 < size nested)).
Qed.

(** Only an array property carries items. *)
Lemma buildFieldProperty_items U rec info nestedCounter ctx p ctx' :
  buildFieldProperty U rec info nestedCounter ctx = Ok (p, ctx') →
  Type' p ≠ typeArray → Items p = None.
Proof.
  intros H Hty.
  apply buildFieldProperty_inv in H as (nested & required & ctx1 & _ & H).
  destruct (shouldUseDefinition U _ nested).
  - rewrite createDefinitionReference_spec in H. by simplify_eq.
  - destruct H as [_ ->]. by destruct (fieldInfo.IsArray info).
Qed.

(** C4, amended.  The property emitted for a field that is a slice or a
    pointer to a slice, other than a raw byte blob, has type ["array"] and an
    item definition.  The property emitted for a field that is a fixed-size
    array or a pointer to one, unless the classifier settles its type by name,
    has type ["array"] too, but no item definition.  A property emitted with
    another type has no items.  (No slice or pointer type prints as
    [interface{}].) *)
Theorem sequence_field_is_array (U : reflect.Universe)
    (rec : reflect.Type_ → nat → M (gmap string PropertyDefinition * list string))
    (field : reflect.StructField) (info : fieldInfo.t) (nestedCounter : nat)
    (ctx ctx' : schemaContext) (p : PropertyDefinition) :
  ¬ skipped field →
  extractFieldInfo U field = Some info →
  buildFieldProperty U rec info nestedCounter ctx = Ok (p, ctx') →
  (sliceShaped U field ∨ pointerToSlice U field →
   ¬ byteBlob U field →
   reflect.Type_String U (reflect.Type' field) ≠ "interface{}" →
   Type' p = typeArray ∧ is_Some (Items p)) ∧
  (arrayShaped U field ∨ pointerToArray U field →
   ¬ classifiedByName U field →
   Type' p = typeArray ∧ Items p = None) ∧
  (Type' p ≠ typeArray → Items p = None).
Proof.
  intros Hskip Hinfo Hbuild.
  split; [|split; [|by eapply buildFieldProperty_items]].
  - intros Hshape Hblob Hname.
    pose proof (extractFieldInfo_tag U field info Hinfo) as [Hfield _].
    assert (fieldInfo.IsArray info = true) as Harr.
    { revert Hinfo. unfold extractFieldInfo. cbv zeta.
      change (reflect.Get (reflect.Tag field) "json") with (jsonTag field).
      rewrite Split_jsonTag. rewrite decide_False by done.
      intros Hinfo. by apply analyzeFieldType_array in Hinfo. }
    apply buildFieldProperty_inv in Hbuild as (nested & required & ctx1 & _ & H).
    unfold shouldUseDefinition in H. rewrite Hfield in H.
    rewrite (bool_decide_eq_false_2
               (reflect.Type_Kind U (reflect.Type' field) = reflect.Struct)),
      andb_false_r in H.
    + destruct H as [_ ->]. rewrite Harr. by split.
    + unfold sliceShaped, pointerToSlice, pointerShaped in Hshape.
      destruct Hshape as [->|[-> _]]; discriminate.
  - intros Hshape Hby.
    pose proof (extractFieldInfo_tag U field info Hinfo) as [Hfield _].
    assert (fieldInfo.IsArray info = false ∧ fieldInfo.TypeName info = typeArray)
      as [Harr Hty].
    { revert Hinfo. unfold extractFieldInfo. cbv zeta.
      change (reflect.Get (reflect.Tag field) "json") with (jsonTag field).
      rewrite Split_jsonTag. rewrite decide_False by done.
      intros Hinfo. by apply analyzeFieldType_fixed in Hinfo. }
    apply buildFieldProperty_inv in Hbuild as (nested & required & ctx1 & _ & H).
    unfold shouldUseDefinition in H. rewrite Hfield in H.
    rewrite (bool_decide_eq_false_2
               (reflect.Type_Kind U (reflect.Type' field) = reflect.Struct)),
      andb_false_r in H.
    + destruct H as [_ ->]. rewrite Harr. unfold buildObjectProperty. cbv zeta.
      rewrite Hty. simpl. split; [|done].
      rewrite decide_False; [done|]. by intros [_ ?].
    + unfold arrayShaped, pointerToArray, pointerShaped in Hshape.
      destruct Hshape as [->|[-> _]]; discriminate.
Qed.

Lemma sequence_field_is_array_witness :
  (sliceShaped Sequences.U Sequences.notesPtrField
   ∨ pointerToSlice Sequences.U Sequences.notesPtrField →
   ¬ byteBlob Sequences.U Sequences.notesPtrField →
   reflect.Type_String Sequences.U (reflect.Type' Sequences.notesPtrField) ≠ "interface{}" →
   Type' Sequences.notesPtrProperty = typeArray ∧ is_Some (Items Sequences.notesPtrProperty)) ∧
  (arrayShaped Sequences.U Sequences.notesPtrField
   ∨ pointerToArray Sequences.U Sequences.notesPtrField →
   ¬ classifiedByName Sequences.U Sequences.notesPtrField →
   Type' Sequences.notesPtrProperty = typeArray ∧ Items Sequences.notesPtrProperty = None) ∧
  (Type' Sequences.notesPtrProperty ≠ typeArray → Items Sequences.notesPtrProperty = None).
Proof.
  apply (sequence_field_is_array Sequences.U (buildProperties Sequences.U 1)
           Sequences.notesPtrField Sequences.notesPtrInfo 0 newContext newContext).
  - unfold skipped. vm_compute. discriminate.
  - vm_compute. reflexivity.
  - vm_compute. reflexivity.
Defined.

(** C4 as worded fails: [Data []byte `json:"data"`] is a sequence-shaped
    field and its property has type ["string"]. *)
Lemma byte_blob_is_not_array : ¬ sequenceFieldsAreArrays Sequences.U Sequences.tBlob.
Proof.
  intros H.
  destruct (H Sequences.blobProperties) with (field := Sequences.blobField)
    (p := Sequences.blobProperty) as [Hty _].
  - vm_compute. reflexivity.
  - by left.
  - by left; left.
  - vm_compute. reflexivity.
  - discriminate Hty.
Qed.

(** It fails for fixed-size arrays too: [Triple [3]int] and
    [TriplePtr *[3]int] are emitted with type ["array"] and without items. *)
Lemma fixed_array_has_no_items :
  GenerateProperties Sequences.U (Some Sequences.tFixed) = Ok Sequences.fixedProperties ∧
  ¬ sequenceFieldsAreArrays Sequences.U Sequences.tFixed.
Proof.
  assert (GenerateProperties Sequences.U (Some Sequences.tFixed)
            = Ok Sequences.fixedProperties) as Hprops by (vm_compute; reflexivity).
  split; [done|]. intros H.
  destruct (H Sequences.fixedProperties Hprops) with (field := Sequences.tripleField)
    (p := Sequences.tripleProperty) as [_ [items Hitems]].
  - by left.
  - by left; right.
  - vm_compute. reflexivity.
  - discriminate Hitems.
Qed.

(** Every mapping that [reflectStruct] returns keeps items on arrays only. *)
Lemma reflectStruct_loop_items U rec fields nestedCounter properties ctx properties' ctx' :
  reflectStruct_loop U rec fields nestedCounter properties ctx = Ok (properties', ctx') →
  map_Forall (λ _ p, Type' p ≠ typeArray → Items p = None) properties →
  map_Forall (λ _ p, Type' p ≠ typeArray → Items p = None) properties'.
Proof.
  revert properties ctx.
  induction fields as [|field fields IH]; intros properties ctx H Hall; simpl in H.
  - unfold ret in H. by simplify_eq.
  - unfold bind, try in H. destruct (extractFieldInfo U field) as [info|]; [|done].
    case_decide; [by eapply IH|].
    destruct (buildFieldProperty U rec info nestedCounter ctx) as [[p ctx1]| |] eqn:Hp;
      [|done..].
    eapply IH; [exact H|]. apply map_Forall_insert_2; [|done].
    by eapply buildFieldProperty_items.
Qed.

(** ** Termination of the walk *)

Section totality.
Context (U : reflect.Universe) (Hwf : reflect.wf_universe U).

Lemma Kind_String_ptr k : reflect.Kind_String k = "ptr" → k = reflect.Ptr.
Proof. by destruct k. Qed.

Lemma convertToEventName_total defType refType :
  ∃ r, convertToEventName U defType refType = Some r.
Proof.
  unfold convertToEventName.
  destruct (classifyName defType); [by eexists|].
  destruct refType as [f|]; [|by eexists]. cbv zeta.
  case_decide; [by eexists|]. case_decide as Hptr; [by eexists|].
  apply Kind_String_ptr in Hptr.
  destruct (Type_Elem_wf U f Hwf) as [e ->]; [by rewrite Hptr|]. simpl.
  case_decide; by eexists.
Qed.

Ltac convert_total :=
  match goal with
  | |- context [convertToEventName U ?d ?r] =>
      destruct (convertToEventName_total d r) as [[[? ?] ?] ->]
  end.

Lemma handleSliceType_total info fieldType :
  reflect.Type_Kind U fieldType = reflect.Slice →
  ∃ info', handleSliceType U info fieldType = Some info'.
Proof.
  intros Hk. unfold handleSliceType.
  destruct (Type_Elem_wf U fieldType Hwf) as [e ->]; [by rewrite Hk|]. simpl.
  convert_total. by eexists.
Qed.

Lemma handlePointerType_total info fieldType :
  reflect.Type_Kind U fieldType = reflect.Ptr →
  ∃ info', handlePointerType U info fieldType = Some info'.
Proof.
  intros Hk. unfold handlePointerType.
  destruct (Type_Elem_wf U fieldType Hwf) as [e ->]; [by rewrite Hk|]. simpl.
  case_decide as Hs.
  - destruct (Type_Elem_wf U e Hwf) as [ee ->]; [by rewrite Hs|]. simpl.
    convert_total. by eexists.
  - convert_total. by eexists.
Qed.

Lemma analyzeFieldType_total info :
  ∃ info', analyzeFieldType U info = Some info'.
Proof.
  unfold analyzeFieldType. cbv zeta.
  case_decide; [by eexists|]. case_decide; [by eexists|].
  destruct (reflect.Type_Kind U (reflect.Type' (fieldInfo.Field info))) eqn:Hk;
    try (convert_total; by eexists).
  - by apply handlePointerType_total.
  - by apply handleSliceType_total.
Qed.

Lemma extractFieldInfo_total field :
  ∃ info, extractFieldInfo U field = Some info.
Proof.
  unfold extractFieldInfo. cbv zeta.
  change (reflect.Get (reflect.Tag field) "json") with (jsonTag field).
  rewrite Split_jsonTag. case_decide; [by eexists|]. apply analyzeFieldType_total.
Qed.

(** A struct type has a descriptor in the table. *)
Lemma struct_in_table s : reflect.Type_Kind U s = reflect.Struct → s ∈ dom U.
Proof.
  unfold reflect.Type_Kind, reflect.descr. intros Hk. apply elem_of_dom.
  destruct (U !! s) as [r|] eqn:Hr.
  - by eexists.
  - simpl in Hk. discriminate.
Qed.

Lemma ok_ret {A} (a : A) ctx : ok_from (ret a) ctx.
Proof. by exists a, ctx. Qed.

Lemma ok_try {A} (o : option A) (a : A) ctx : o = Some a → ok_from (try o) ctx.
Proof. intros ->. by exists a, ctx. Qed.

Lemma ok_bind {A B} (m : M A) (k : A → M B) ctx :
  ok_from m ctx →
  (∀ a ctx1, m ctx = Ok (a, ctx1) → visited ctx ⊆ visited ctx1 → ok_from (k a) ctx1) →
  ok_from (bind m k) ctx.
Proof.
  intros (a & ctx1 & Hm & Hsub) Hk.
  destruct (Hk a ctx1 Hm Hsub) as (b & ctx' & Hb & Hsub').
  exists b, ctx'. unfold bind. rewrite Hm. split; [done|]. by etrans.
Qed.

Lemma ok_createDefinitionReference info nested required ctx :
  ok_from (createDefinitionReference U info nested required) ctx.
Proof. eexists _, _. by rewrite createDefinitionReference_spec. Qed.

Lemma buildFieldProperty_total rec info nestedCounter V ctx :
  succeeds_from rec (S nestedCounter) V →
  V ⊆ visited ctx →
  ok_from (buildFieldProperty U rec info nestedCounter) ctx.
Proof.
  intros Hrec HV. unfold buildFieldProperty. apply ok_bind.
  - destruct (fieldInfo.SkipNested info); simpl; [apply ok_ret|].
    apply ok_bind; [by apply Hrec|]. intros [nested required] ctx1 _ _. apply ok_ret.
  - intros [[nested required] n'] ctx1 _ _.
    destruct (shouldUseDefinition U _ nested); [apply ok_createDefinitionReference|].
    destruct (fieldInfo.IsArray info); apply ok_ret.
Qed.

Lemma reflectStruct_loop_total rec fields nestedCounter V :
  succeeds_from rec (S nestedCounter) V →
  ∀ properties ctx, V ⊆ visited ctx →
    ok_from (reflectStruct_loop U rec fields nestedCounter properties) ctx.
Proof.
  intros Hrec. induction fields as [|field fields IH]; intros properties ctx HV; simpl.
  - apply ok_ret.
  - destruct (extractFieldInfo_total field) as [info Hinfo].
    apply ok_bind; [by eapply ok_try|].
    intros info' ctx1 Heq Hsub. unfold try in Heq. rewrite Hinfo in Heq. simplify_eq.
    case_decide; [by apply IH|].
    apply ok_bind; [by eapply buildFieldProperty_total|].
    intros p ctx2 _ Hsub2. apply IH. set_solver.
Qed.

Lemma visitStruct_total rec s nestedCounter ctx :
  reflect.Type_Kind U s = reflect.Struct →
  (¬ (s ∈ visited ctx ∧ 1 < nestedCounter) →
   succeeds_from rec (S nestedCounter) ({[s]} ∪ visited ctx)) →
  ok_from (visitStruct U rec s nestedCounter) ctx.
Proof.
  intros Hk Hrec. unfold visitStruct, ok_from. case_decide as Hstop; [by eexists _, _|].
  destruct (ok_bind (try (reflect.Type_Fields U s))
              (λ fields, reflectStruct_loop U rec fields nestedCounter ∅)
              (mkContext ({[s]} ∪ visited ctx) (definitions ctx) (counter ctx)))
    as (ps & ctx' & Hps & Hsub).
  - eapply ok_try. unfold reflect.Type_Fields. by rewrite decide_True.
  - intros fields ctx1 Heq Hsub. unfold try in Heq. destruct (reflect.Type_Fields U s); [|done].
    simplify_eq. by eapply reflectStruct_loop_total; [apply Hrec|].
  - exists ps, ctx'. split; [done|]. simpl in Hsub. set_solver.
Qed.

Lemma ok_required {A} (t : positive) (k : list string → M A) ctx :
  (∀ required, ok_from (k required) ctx) →
  ok_from (bind (try (GenerateRequired U None (Some t))) k) ctx.
Proof.
  intros Hk. destruct (GenerateRequired_total U None (Some t) Hwf) as [required Hreq].
  apply ok_bind; [by eapply ok_try|].
  intros required' ctx1 Heq _. unfold try in Heq. rewrite Hreq in Heq. simplify_eq.
  apply Hk.
Qed.

Lemma ok_elem {A} (t : positive) (k : positive → M A) ctx :
  reflect.has_elem (reflect.Type_Kind U t) = true →
  (∀ e, reflect.Type_Elem U t = Some e → ok_from (k e) ctx) →
  ok_from (bind (try (reflect.Type_Elem U t)) k) ctx.
Proof.
  intros Hk Hcont. destruct (Type_Elem_wf U t Hwf Hk) as [e He].
  apply ok_bind; [by eapply ok_try|].
  intros e' ctx1 Heq _. unfold try in Heq. rewrite He in Heq. simplify_eq.
  by apply Hcont.
Qed.

Lemma buildProperties_body_total rec t nestedCounter ctx :
  (∀ s, reflect.Type_Kind U s = reflect.Struct →
        ¬ (s ∈ visited ctx ∧ 1 < nestedCounter) →
        succeeds_from rec (S nestedCounter) ({[s]} ∪ visited ctx)) →
  ok_from (buildProperties_body U rec (Some t) nestedCounter) ctx.
Proof.
  intros Hrec. unfold buildProperties_body.
  apply ok_bind; [by eapply ok_try|].
  intros t0 ctx0 Heq _. unfold try in Heq. simplify_eq.
  assert (∀ (s t1 : positive), reflect.Type_Kind U s = reflect.Struct →
            ok_from (do properties <- visitStruct U rec s nestedCounter;
                     ret (properties, t1)) ctx0) as Hvisit.
  { intros s t1 Hs. apply ok_bind; [by apply visitStruct_total; [|apply Hrec]|].
    intros ps ctx1 _ _. apply ok_ret. }
  apply ok_bind.
  - destruct (reflect.Type_Kind U t0) eqn:Hk; try apply ok_ret.
    + (* pointer *)
      apply ok_elem; [by rewrite Hk|]. intros e He.
      apply ok_bind with (m := if decide (reflect.Type_Kind U e = reflect.Slice) then _ else _).
      * case_decide as Hs; [|apply ok_ret].
        apply ok_elem; [by rewrite Hs|]. intros ee _. apply ok_ret.
      * intros t1 ctx1 Ht1 _.
        assert (reflect.has_elem (reflect.Type_Kind U t1) = true ∧ ctx1 = ctx0) as [Hel ->].
        { revert Ht1. case_decide as Hs.
          - unfold bind, try, ret. destruct (reflect.Type_Elem U e); [|done].
            case_decide; intros; simplify_eq; by rewrite ?Hs, ?Hk.
          - unfold ret. intros; simplify_eq. by rewrite Hk. }
        clear Ht1. apply ok_elem; [done|]. intros e1 _.
        case_decide as Hst; [apply ok_ret|].
        apply Hvisit; first [done | by apply dec_stable].
    + (* slice *)
      apply ok_elem; [by rewrite Hk|]. intros e He.
      apply ok_bind with (m := if decide (reflect.Type_Kind U e = reflect.Ptr) then _ else _).
      * case_decide as Hp; [|apply ok_ret].
        destruct (Type_Elem_wf U e Hwf) as [ee Hee]; [by rewrite Hp|]. by eapply ok_try.
      * intros e' ctx1 He' _.
        assert (ctx1 = ctx0) as ->.
        { revert He'. case_decide; unfold try, ret; [destruct (reflect.Type_Elem U e)|];
            intros; by simplify_eq. }
        clear He'. case_decide as Hst; [apply ok_ret|].
        apply Hvisit; first [done | by apply dec_stable].
    + (* struct *)
      by apply Hvisit.
  - intros [properties t1] ctx1 _ Hsub. apply ok_required. intros required. apply ok_ret.
Qed.

Lemma buildProperties_enough_fuel fuel :
  ∀ t nestedCounter ctx,
    levelsLeft U nestedCounter ctx < fuel →
    ok_from (buildProperties U fuel (Some t) nestedCounter) ctx.
Proof.
  induction fuel as [|fuel IH]; intros t n ctx Hfuel; [lia|].
  simpl. apply buildProperties_body_total.
  intros s Hs Hgo t' ctx2 Hsub. apply IH.
  unfold levelsLeft in *.
  destruct (decide (1 < n)) as [Hn|Hn].
  - assert (s ∉ visited ctx) as Hnew by (intros ?; by apply Hgo).
    assert (size (dom U ∖ visited ctx2) < size (dom U ∖ visited ctx))%nat; [|lia].
    apply subset_size. split; [set_solver|].
    intros Hsuper. pose proof (struct_in_table s Hs). set_solver.
  - assert (size (dom U ∖ visited ctx2) ≤ size (dom U ∖ visited ctx))%nat; [|lia].
    apply subseteq_size. set_solver.
Qed.

End totality.

(** On every well-formed table and every root type, [GenerateProperties]
    returns a mapping: the walk ends, also on cyclic types, and nothing
    panics. *)
Theorem GenerateProperties_total (U : reflect.Universe) (t : positive) :
  reflect.wf_universe U →
  ∃ properties, GenerateProperties U (Some t) = Ok properties.
Proof.
  intros Hwf. unfold GenerateProperties.
  destruct (buildProperties_enough_fuel U Hwf (levels U) t 0 newContext)
    as ([properties required] & ctx' & -> & _); [|by eexists].
  unfold levelsLeft, levels. simpl.
  assert (size (dom U ∖ (∅ : gset positive)) ≤ size U)%nat; [|lia].
  trans (size (dom U)); [apply subseteq_size; set_solver|].
  by rewrite size_dom.
Qed.

Lemma GenerateProperties_total_witness :
  ∃ properties, GenerateProperties TestTypes.U (Some TestTypes.tRecursiveStruct) = Ok properties.
Proof.
  apply (GenerateProperties_total TestTypes.U TestTypes.tRecursiveStruct).
  unfold reflect.wf_universe, reflect.wf_rtype.
  apply (bool_decide_unpack _). vm_compute. exact I.
Defined.

(** ** The walk on the examples *)

Ltac evaluate :=
  repeat match goal with |- _ ∧ _ => split end; vm_compute; first [reflexivity | eauto].

(** What the package's tests assert ([TestEdgeCases],
    [TestRecursiveStructs], [TestGenerateRequired]) holds of the model; the
    walk over the recursive type ends. *)
Lemma package_tests :
  (GenerateProperties TestTypes.U (Some TestTypes.tEdgeCaseStruct)
     = Ok TestTypes.edgeProperties ∧
   Type' <$> TestTypes.edgeProperties !! "map_field" = Some "object" ∧
   Type' <$> TestTypes.edgeProperties !! "interface_field" = Some "" ∧
   Type' <$> TestTypes.edgeProperties !! "time_field" = Some "string" ∧
   Format <$> TestTypes.edgeProperties !! "time_field" = Some "date-time" ∧
   Type' <$> TestTypes.edgeProperties !! "byte_slice" = Some "string" ∧
   Format <$> TestTypes.edgeProperties !! "byte_slice" = Some "byte" ∧
   TestTypes.edgeProperties !! "skipped_field" = None ∧
   Type' <$> TestTypes.edgeProperties !! "uint_field" = Some "integer") ∧
  (GenerateProperties TestTypes.U (Some TestTypes.tRecursiveStruct)
     = Ok TestTypes.recursiveProperties ∧
   is_Some (TestTypes.recursiveProperties !! "name") ∧
   Type' <$> TestTypes.recursiveProperties !! "children" = Some "array" ∧
   is_Some (TestTypes.recursiveProperties !! "children" ≫= Items)) ∧
  GenerateRequired TestTypes.U (Some TestTypes.tEventTags) None
    = Some ["event_name"; "event_version"; "event_id"] ∧
  GenerateRequired TestTypes.U (Some TestTypes.tMainStruct) None
    = Some ["alias"; "struct_simple"].
Proof. evaluate. Qed.

(** C2, at the input on which the walk departs from it.  [Main] has two
    fields of the same type [Simple], which is not recursive.  Walked as the
    root, both are expanded; walked as the type of the field [Body] of
    [Outer], one level down, the second is cut as if it closed a cycle: the
    reset of [nestedCounter] in [buildFieldProperty] writes to the callee's
    copy, so the counter is the nesting depth and every type seen before is
    cut from depth two on. *)
Theorem sibling_below_root_is_cut :
  GenerateProperties Nested.U (Some Nested.tMain) = Ok Nested.mainAtRoot ∧
  GenerateProperties Nested.U (Some Nested.tOuter) = Ok Nested.outerProperties ∧
  Properties (Nested.simpleCut "Second") = ∅.
Proof. evaluate. Qed.

(** The same on the types of the package's tests.  In the schema of
    [EventToGenerate], [MainStruct] is walked one level below the root: its
    field [StructSimple] is expanded and hoisted, and the later fields of the
    same struct type are cut, [StructPtr] with the Go type name as its type. *)
Lemma test_types_siblings_are_cut :
  GenerateSchema TestTypes.U (Some TestTypes.tEventToGenerate) "Test Event" "url"
    = Ok TestTypes.eventSchema ∧
  Schema.Definitions TestTypes.eventSchema !! "MainStruct" = Some TestTypes.mainDefinition ∧
  Properties TestTypes.mainDefinition !! "struct_simple"
    = Some (mkProperty "" "StructSimple" "" [] None ∅ "#/$defs/SimpleStruct") ∧
  Properties TestTypes.mainDefinition !! "struct_ptr"
    = Some (mkProperty "*schematic.SimpleStruct" "StructPtr" ""
              TestTypes.simpleRequired None ∅ "") ∧
  Properties TestTypes.mainDefinition !! "slice_struct"
    = Some (mkProperty "array" "SliceStruct" "" []
              (Some (mkProperty "struct" "SliceStruct" "" [] None ∅ "")) ∅ "").
Proof. evaluate. Qed.

(** C3, at the input on which the generator departs from it.  [Pair] has
    two fields of type [EventTags], which has three properties.  As the root,
    both fields become references to the one definition; as the type of the
    field [Body] of [Event], the second field is not expanded, so it has no
    nested properties and stays an inline property that is not a reference. *)
Theorem sibling_below_root_is_not_hoisted :
  GenerateSchema Nested.U (Some Nested.tPair) "title" "url" = Ok Nested.pairSchema ∧
  GenerateSchema Nested.U (Some Nested.tEvent) "title" "url" = Ok Nested.eventSchema ∧
  Ref (Nested.tagsCut "B") = "".
Proof. evaluate. Qed.

(** C5, at the input on which the two traversals disagree.  The tag [-,]
    has the name part [-]: the property walk skips the field, and
    [GenerateRequired], which compares the whole tag with [-], requires the
    key [-]. *)
Theorem dash_comma_is_required_without_property :
  GenerateRequired Dash.U (Some Dash.tDash) None = Some ["-"] ∧
  GenerateProperties Dash.U (Some Dash.tDash) = Ok ∅.
Proof. evaluate. Qed.

(** C9, at the nil root: [GenerateRequired] returns the empty list, and
    [GenerateProperties] and [GenerateSchema] panic, on the call of [t.Kind()]
    that opens [buildProperties]. *)
Theorem nil_root_panics (U : reflect.Universe) (title schemaURL : string) :
  GenerateRequired U None None = Some [] ∧
  GenerateProperties U None = Panic ∧
  GenerateSchema U None title schemaURL = Panic.
Proof.
  unfold GenerateProperties, GenerateSchema, levels.
  replace (size U + 3) with (S (size U + 2)) by lia. done.
Qed.

(** ** Required keys and property keys *)

Lemma bind_Ok {A B} (m : M A) (k : A → M B) ctx r :
  bind m k ctx = Ok r → ∃ a ctx1, m ctx = Ok (a, ctx1) ∧ k a ctx1 = Ok r.
Proof.
  unfold bind. destruct (m ctx) as [[a ctx1]| |]; [|done..]. intros H. by exists a, ctx1.
Qed.

Lemma try_Ok {A} (o : option A) ctx a ctx1 :
  try o ctx = Ok (a, ctx1) → o = Some a ∧ ctx1 = ctx.
Proof. unfold try. destruct o; intros; by simplify_eq. Qed.

(** The keys of the mapping that [reflectStruct] builds. *)
Lemma reflectStruct_loop_keys U rec fields nestedCounter :
  ∀ properties ctx properties' ctx',
    reflectStruct_loop U rec fields nestedCounter properties ctx = Ok (properties', ctx') →
    dom properties ⊆ dom properties' ∧
    ∀ field, field ∈ fields →
      ¬ skipped field → externalKey field ≠ "-" → externalKey field ≠ "" →
      externalKey field ∈ dom properties'.
Proof.
  induction fields as [|field fields IH]; intros properties ctx properties' ctx' H; simpl in H.
  - unfold ret in H. simplify_eq. split; [done|]. intros f Hf. by apply not_elem_of_nil in Hf.
  - apply bind_Ok in H as (info & ctx1 & Hinfo & H).
    apply try_Ok in Hinfo as [Hinfo ->].
    apply extractFieldInfo_tag in Hinfo as [_ Htag].
    case_decide as Hskip.
    + apply IH in H as [Hdom Hkeys]. split; [done|].
      intros f Hf Hs Hd He. apply elem_of_cons in Hf as [->|Hf]; [|by apply Hkeys].
      rewrite Htag in Hskip. rewrite decide_False in Hskip by done.
      by destruct Hskip.
    + apply bind_Ok in H as (p & ctx2 & _ & H).
      apply IH in H as [Hdom Hkeys]. rewrite dom_insert in Hdom. split; [set_solver|].
      intros f Hf Hs Hd He. apply elem_of_cons in Hf as [->|Hf]; [|by apply Hkeys].
      rewrite Htag in Hdom. rewrite decide_False in Hdom by done. set_solver.
Qed.

(** What [GenerateRequired] returns on a root: nothing, or the required
    keys of the struct that the root is or points to. *)
Lemma GenerateRequired_root U t required :
  GenerateRequired U (Some t) None = Some required →
  required = [] ∨
  ∃ s, reflect.Type_Kind U s = reflect.Struct ∧
       (s = t ∨ (reflect.Type_Kind U t = reflect.Ptr ∧ reflect.Type_Elem U t = Some s)) ∧
       required = externalKey <$> filter (requiredField U) (reflect.rFields (reflect.descr U s)).
Proof.
  pose proof (GenerateRequired_struct U t) as Hstruct.
  unfold GenerateRequired. cbv zeta. simpl.
  assert (∀ s, (if decide (reflect.Type_Kind U s ≠ reflect.Struct) then Some []
                else reflect.Type_Fields U s ≫= λ fields, requiredLoop U fields [])
               = Some required →
               required = [] ∨
               (reflect.Type_Kind U s = reflect.Struct ∧
                required = externalKey <$> filter (requiredField U)
                                             (reflect.rFields (reflect.descr U s)))) as Hs.
  { intros s. case_decide as Hk; [intros; left; by simplify_eq|].
    unfold reflect.Type_Fields. rewrite decide_True by done. simpl.
    rewrite requiredLoop_spec. intros; right. by simplify_eq. }
  pose proof (Hs t) as Ht.
  destruct (reflect.Type_Kind U t) eqn:Hk; try (intros; left; by simplify_eq);
    try (intros H; apply Ht in H as [?|[? ?]]; [by left|done]).
  - destruct (reflect.Type_Elem U t) as [e|] eqn:He; simpl; [|done].
    intros H. apply Hs in H as [?|[? ?]]; [by left|]. right. exists e. eauto.
  - intros H. apply Ht in H as [?|[_ ?]]; [by left|]. right. exists t. eauto.
Qed.

(** What the walk returns on a root that is a struct or points to one: the
    mapping that the loop of [reflectStruct] builds from its fields. *)
Lemma buildProperties_root U rec t s ctx r ctx' :
  reflect.Type_Kind U s = reflect.Struct →
  s = t ∨ (reflect.Type_Kind U t = reflect.Ptr ∧ reflect.Type_Elem U t = Some s) →
  buildProperties_body U rec (Some t) 0 ctx = Ok (r, ctx') →
  ∃ ctx1 ctx2,
    reflectStruct_loop U rec (reflect.rFields (reflect.descr U s)) 0 ∅ ctx1 = Ok (r.1, ctx2).
Proof.
  intros Hs Hroot H. unfold buildProperties_body in H.
  apply bind_Ok in H as (t0 & ctx0 & Ht0 & H). apply try_Ok in Ht0 as [? ->]. simplify_eq.
  apply bind_Ok in H as ([properties t1] & ctx1 & Hwalk & H).
  apply bind_Ok in H as (required & ctx2 & _ & H). unfold ret in H. simplify_eq. simpl.
  assert (∀ ctx0 ctx1 ps (t' : positive),
    (do properties <- visitStruct U rec s 0; ret (properties, t')) ctx0 = Ok (ps, t1, ctx1) →
    ∃ ctx1' ctx2',
      reflectStruct_loop U rec (reflect.rFields (reflect.descr U s)) 0 ∅ ctx1' = Ok (ps, ctx2'))
    as Hvisit.
  { intros ctx0 ctx3 ps t' Hv. apply bind_Ok in Hv as (ps' & ctx4 & Hv & Hr).
    unfold ret in Hr. simplify_eq. unfold visitStruct in Hv.
    rewrite decide_False in Hv by lia. unfold reflectStruct in Hv.
    apply bind_Ok in Hv as (fields & ctx5 & Hf & Hv). apply try_Ok in Hf as [Hf ->].
    unfold reflect.Type_Fields in Hf. rewrite decide_True in Hf by done. simplify_eq.
    by eexists _, _. }
  destruct Hroot as [->|[Hk He]].
  - rewrite Hs in Hwalk. by eapply Hvisit.
  - rewrite Hk in Hwalk.
    apply bind_Ok in Hwalk as (e & ctx3 & He' & Hwalk). apply try_Ok in He' as [He' ->].
    rewrite He in He'. simplify_eq.
    rewrite decide_False in Hwalk by (rewrite Hs; discriminate).
    apply bind_Ok in Hwalk as (t2 & ctx4 & Ht2 & Hwalk). unfold ret in Ht2. simplify_eq.
    apply bind_Ok in Hwalk as (e' & ctx5 & He' & Hwalk). apply try_Ok in He' as [He' ->].
    rewrite He in He'. simplify_eq.
    rewrite decide_False in Hwalk by (by intros ?).
    by eapply Hvisit.
Qed.

(** When every field has a plain key, every required key of a root is a key
    of the property mapping of that root. *)
Theorem required_subset_properties (U : reflect.Universe) (t : positive)
    (required : list string) (properties : gmap string PropertyDefinition) :
  plainKeys U →
  GenerateRequired U (Some t) None = Some required →
  GenerateProperties U (Some t) = Ok properties →
  ∀ key, key ∈ required → key ∈ dom properties.
Proof.
  intros Hplain Hreq Hprops key Hkey.
  apply GenerateRequired_root in Hreq as [->|(s & Hs & Hroot & ->)];
    [by apply not_elem_of_nil in Hkey|].
  unfold GenerateProperties, levels in Hprops.
  replace (size U + 3) with (S (size U + 2)) in Hprops by lia. simpl in Hprops.
  destruct (buildProperties_body U _ (Some t) 0 newContext) as [[r ctx']| |] eqn:Hbody;
    [|done..].
  destruct r as [ps rq]. simplify_eq.
  destruct (buildProperties_root U _ t s _ _ _ Hs Hroot Hbody) as (ctx1 & ctx2 & Hloop).
  apply reflectStruct_loop_keys in Hloop as [_ Hkeys]. simpl in Hkeys.
  apply list_elem_of_fmap in Hkey as (field & -> & Hfield).
  apply list_elem_of_filter in Hfield as [Hr Hin].
  assert (plainKey field) as Hfield.
  { unfold reflect.descr in Hin. destruct (U !! s) as [r|] eqn:Hr'; simpl in Hin.
    - apply Hplain in Hr'. rewrite Forall_forall in Hr'. by apply Hr'.
    - by apply not_elem_of_nil in Hin. }
  destruct Hfield as (? & ? & ?); [by destruct Hr|].
  by apply Hkeys.
Qed.

Lemma required_subset_properties_witness :
  ∀ key, key ∈ ["event_name"; "event_version"; "event_id"] →
         key ∈ dom (Properties Nested.tagsDefinition).
Proof.
  apply (required_subset_properties Nested.U Nested.tTagsPtr).
  - apply (bool_decide_unpack _). vm_compute. exact I.
  - vm_compute. reflexivity.
  - vm_compute. reflexivity.
Defined.

(** ** Roots *)

(** On every well-formed table and every root type, [GenerateSchema]
    returns a schema: the walk terminates, also on cyclic types, and nothing
    panics. *)
Theorem GenerateSchema_total (U : reflect.Universe) (t : positive) (title schemaURL : string) :
  reflect.wf_universe U →
  ∃ schema, GenerateSchema U (Some t) title schemaURL = Ok schema.
Proof.
  intros Hwf. unfold GenerateSchema.
  destruct (buildProperties_enough_fuel U Hwf (levels U) t 0 newContext)
    as ([properties required] & ctx' & -> & _).
  - unfold levelsLeft, levels. simpl.
    assert (size (dom U ∖ (∅ : gset positive)) ≤ size U)%nat; [|lia].
    trans (size (dom U)); [apply subseteq_size; set_solver|].
    by rewrite size_dom.
  - destruct (GenerateRequired_total U (Some t) None Hwf) as [required' ->]. by eexists.
Qed.

(** The cut: a struct that was seen, entered more than one level deep, is
    not reflected, and the field gets no nested properties. *)
Lemma visitStruct_cut U rec s nestedCounter ctx :
  s ∈ visited ctx → 1 < nestedCounter →
  visitStruct U rec s nestedCounter ctx = Ok (∅, ctx).
Proof. intros Hs Hn. unfold visitStruct. by rewrite decide_True. Qed.

(** A root that is not a struct, a pointer or a slice has no properties and
    no required keys. *)
Theorem scalar_root_is_empty (U : reflect.Universe) (t : positive) :
  reflect.Type_Kind U t ≠ reflect.Struct →
  reflect.Type_Kind U t ≠ reflect.Ptr →
  reflect.Type_Kind U t ≠ reflect.Slice →
  GenerateProperties U (Some t) = Ok ∅ ∧ GenerateRequired U (Some t) None = Some [].
Proof.
  intros Hstruct Hptr Hslice.
  assert (GenerateRequired U (Some t) None = Some [] ∧
          GenerateRequired U None (Some t) = Some []) as [Hreq Hreq'].
  { unfold GenerateRequired. cbv zeta. simpl.
    destruct (reflect.Type_Kind U t) eqn:Hk; try done; by rewrite decide_True. }
  split; [|done].
  unfold GenerateProperties, levels.
  replace (size U + 3) with (S (size U + 2)) by lia. simpl.
  unfold buildProperties_body, bind, try, ret.
  assert (match reflect.Type_Kind U t with
          | reflect.Slice | reflect.Struct | reflect.Ptr => False
          | _ => True
          end) as Hk by (by destruct (reflect.Type_Kind U t)).
  destruct (reflect.Type_Kind U t); try done; by rewrite Hreq'.
Qed.

Lemma scalar_root_is_empty_witness :
  GenerateProperties Plain.U (Some Examples.tInt) = Ok ∅ ∧
  GenerateRequired Plain.U (Some Examples.tInt) None = Some [].
Proof. apply (scalar_root_is_empty Plain.U Examples.tInt); vm_compute; discriminate. Defined.

(** ** The hoisting rule *)

(** A field is replaced by a reference exactly when its nested walk returns
    more than two properties and its own type is of kind struct.  The
    reference carries the pointer and the field's name only; the definition is
    stored under the type's name (or a name made from the counter) unless the
    name is taken. *)
Theorem hoisting_rule (U : reflect.Universe)
    (rec : reflect.Type_ → nat → M (gmap string PropertyDefinition * list string))
    (info : fieldInfo.t) (nestedCounter : nat) (ctx ctx' : schemaContext)
    (p : PropertyDefinition) :
  buildFieldProperty U rec info nestedCounter ctx = Ok (p, ctx') →
  ∃ nested required ctx1,
    (if fieldInfo.SkipNested info then nested = ∅ ∧ required = [] ∧ ctx1 = ctx
     else rec (Some (reflect.Type' (fieldInfo.Field info))) (S nestedCounter) ctx
          = Ok ((nested, required), ctx1)) ∧
    ((2 < size nested ∧
      reflect.Type_Kind U (reflect.Type' (fieldInfo.Field info)) = reflect.Struct ∧
      ∃ defName,
        p = mkProperty "" (reflect.Name (fieldInfo.Field info)) "" [] None ∅
              ("#/$defs/" +:+ defName) ∧
        definitions ctx' !! defName =
          Some (default (mkProperty "object" (reflect.Name (fieldInfo.Field info)) ""
                           required None nested "")
                        (definitions ctx1 !! defName)) ∧
        ∀ other, other ≠ defName → definitions ctx' !! other = definitions ctx1 !! other)
     ∨
     (¬ (2 < size nested ∧
         reflect.Type_Kind U (reflect.Type' (fieldInfo.Field info)) = reflect.Struct) ∧
      Ref p = "" ∧ ctx' = ctx1)).
Proof.
  intros H.
  apply buildFieldProperty_inv in H as (nested & required & ctx1 & Hnested & H).
  exists nested, required, ctx1. split; [done|].
  unfold shouldUseDefinition in H.
  destruct (decide (2 < size nested)) as [Hsize|Hsize];
    destruct (decide (reflect.Type_Kind U (reflect.Type' (fieldInfo.Field info))
                      = reflect.Struct)) as [Hk|Hk];
    rewrite ?(bool_decide_eq_true_2 _ Hsize), ?(bool_decide_eq_false_2 _ Hsize),
      ?(bool_decide_eq_true_2 _ Hk), ?(bool_decide_eq_false_2 _ Hk) in H; simpl in H.
  - left. split; [done|]. split; [done|].
    rewrite createDefinitionReference_spec in H. cbv zeta in H. simplify_eq.
    eexists. split; [reflexivity|]. simpl.
    match goal with |- context [definitions ctx1 !! ?d] => set (defName := d) end.
    destruct (definitions ctx1 !! defName) eqn:Hd; simpl.
    + by rewrite Hd.
    + rewrite lookup_insert_eq. split; [done|]. intros other Ho. by rewrite lookup_insert_ne.
  - right. destruct H as [-> ->]. split; [by intros [_ ?]|].
    split; [by destruct (fieldInfo.IsArray info)|done].
  - right. destruct H as [-> ->]. split; [by intros [? _]|].
    split; [by destruct (fieldInfo.IsArray info)|done].
  - right. destruct H as [-> ->]. split; [by intros [? _]|].
    split; [by destruct (fieldInfo.IsArray info)|done].
Qed.
